(** * screenshot-organizer: the analyze route ([src/app/api/analyze/route.ts])

    A shallow embedding of the [POST] handler of the two-phase
    analyze/categorize route (HEIC-aware ingestion, per-item analysis,
    category synthesis, result assembly) and the properties of its
    response.

    Conventions of the embedding.
    - JavaScript strings are [string]s of ASCII characters; [toLowerCase],
      [trim] and the regular-expression class [\s] act on ASCII.
    - A finite JavaScript number is an exact rational ([Q]).  The route
      only compares numbers ([Math.min], [Math.max], [includes],
      truthiness) and never computes with them; a numeric literal stands
      for its exact value, the rounding of a literal to the nearest double
      is not modelled.
    - Values built by [JSON.parse] are [jsval]s; an operation that raises a
      [TypeError] in JavaScript returns [Throw].
    - The two external collaborators (the inference client and the image
      codec) are the fields of a [World]; every call to the inference client
      is recorded in a log. *)

From Stdlib Require Import String Ascii List ZArith QArith Bool Lia.
From Stdlib Require Import DecimalString Permutation.
Import ListNotations.

Close Scope Q_scope.
Open Scope list_scope.
Open Scope string_scope.

Set Implicit Arguments.

(** ** Completions: a value or a thrown exception *)

Inductive completion (A : Type) : Type :=
| Normal (a : A)
| Throw.

Arguments Normal {A} a.
Arguments Throw {A}.

Definition bind {A B} (c : completion A) (k : A -> completion B) : completion B :=
  match c with
  | Normal a => k a
  | Throw => Throw
  end.

Notation "x <- c ;; k" := (bind c (fun x => k))
  (at level 61, c at next level, right associativity).

(** ** Strings: the [String.prototype] methods the route uses *)

Module Str.

Definition dec (n : nat) : string := NilEmpty.string_of_uint (Nat.to_uint n).

(** [\s] and the characters removed by [trim], restricted to ASCII:
    TAB, LF, VT, FF, CR and SPACE. *)
Definition is_space (c : ascii) : bool :=
  let n := nat_of_ascii c in
  ((9 <=? n)%nat && (n <=? 13)%nat) || (n =? 32)%nat.

Fixpoint rev_onto (s acc : string) : string :=
  match s with
  | EmptyString => acc
  | String c s' => rev_onto s' (String c acc)
  end.

Definition rev (s : string) : string := rev_onto s "".

Fixpoint trimStart (s : string) : string :=
  match s with
  | EmptyString => ""
  | String c s' => if is_space c then trimStart s' else s
  end.

Definition trimEnd (s : string) : string := rev (trimStart (rev s)).

Definition trim (s : string) : string := trimEnd (trimStart s).

Definition startsWith (s pre : string) : bool := String.prefix pre s.

Definition endsWith (s suf : string) : bool := String.prefix (rev suf) (rev s).

Fixpoint includes (s sub : string) : bool :=
  String.prefix sub s ||
  match s with
  | EmptyString => false
  | String _ s' => includes s' sub
  end.

Definition lower (c : ascii) : ascii :=
  let n := nat_of_ascii c in
  if ((65 <=? n)%nat && (n <=? 90)%nat) then ascii_of_nat (n + 32) else c.

Fixpoint toLowerCase (s : string) : string :=
  match s with
  | EmptyString => ""
  | String c s' => String (lower c) (toLowerCase s')
  end.

(** [s.substring(0, n)] *)
Fixpoint substring0 (n : nat) (s : string) : string :=
  match n, s with
  | S n', String c s' => String c (substring0 n' s')
  | _, _ => ""
  end.

(** [s.replace(/\s+/g, '_')]: every maximal run of white space becomes one
    underscore.  [in_run] tells that the previous character was white. *)
Fixpoint underscore_spaces (in_run : bool) (s : string) : string :=
  match s with
  | EmptyString => ""
  | String c s' =>
      if is_space c
      then (if in_run then underscore_spaces true s'
            else String "_" (underscore_spaces true s'))
      else String c (underscore_spaces false s')
  end.

Definition newline : ascii := ascii_of_nat 10.

Definition dquote : ascii := ascii_of_nat 34.

(** Test inputs are written with apostrophes where the JSON text has double
    quotes; [quoted] puts the double quotes back. *)
Fixpoint quoted (s : string) : string :=
  match s with
  | EmptyString => ""
  | String c s' => String (if Ascii.eqb c "'" then dquote else c) (quoted s')
  end.

Definition starts_with_newline (s : string) : bool :=
  match s with
  | String c _ => Ascii.eqb c newline
  | EmptyString => false
  end.

Fixpoint drop (n : nat) (s : string) : string :=
  match n, s with
  | S n', String _ s' => drop n' s'
  | _, _ => s
  end.

(** [s.replace(/PAT\n?/g, '')] for a literal, non-empty [pat]: scanning
    from the left, each occurrence of [pat] and the line feed that may
    follow it is removed.  [skip] counts the characters of the current
    occurrence still to be dropped. *)
Fixpoint remove_all (pat : string) (skip : nat) (s : string) : string :=
  match s with
  | EmptyString => ""
  | String c s' =>
      match skip with
      | S k => remove_all pat k s'
      | O =>
          if String.prefix pat s
          then
            let len := String.length pat in
            let k := if starts_with_newline (drop len s) then len else len - 1 in
            remove_all pat k s'
          else String c (remove_all pat 0 s')
      end
  end.

(** [s.replace(/^PAT\n?/g, '')]: the anchor makes the global flag moot, at
    most the occurrence at the start of the string is removed. *)
Definition remove_leading (pat : string) (s : string) : string :=
  if String.prefix pat s
  then
    let r := drop (String.length pat) s in
    if starts_with_newline r then drop 1 r else r
  else s.

(** The longest prefix of [s] that ends with a closing brace. *)
Fixpoint through_last_rbrace (s : string) : option string :=
  match s with
  | EmptyString => None
  | String c s' =>
      match through_last_rbrace s' with
      | Some t => Some (String c t)
      | None => if Ascii.eqb c "}" then Some "}" else None
      end
  end.

Fixpoint from_first_lbrace (s : string) : option string :=
  match s with
  | EmptyString => None
  | String c s' => if Ascii.eqb c "{" then Some s else from_first_lbrace s'
  end.

(** [s.match(/\{[\s\S]*\}/)]: the match starts at the first opening brace
    and, the star being greedy, runs to the last closing brace of the
    string; there is no match when no closing brace follows. *)
Definition match_braces (s : string) : option string :=
  match from_first_lbrace s with
  | Some t => through_last_rbrace t
  | None => None
  end.

End Str.

(** ** JavaScript values *)

Inductive jsnum : Type :=
| NaN
| PosInf
| NegInf
| Fin (q : Q).

#[warnings="-register-all"]
Inductive jsval : Type :=
| JUndefined
| JNull
| JBool (b : bool)
| JNum (n : jsnum)
| JStr (s : string)
| JArr (elems : list jsval)
| JObj (props : list (string * jsval)).

Definition num_of_nat (n : nat) : jsnum := Fin (inject_Z (Z.of_nat n)).

Definition JInt (n : nat) : jsval := JNum (num_of_nat n).

(** [Math.max] and [Math.min] of two arguments. *)
Definition Math_max (a b : jsnum) : jsnum :=
  match a, b with
  | NaN, _ | _, NaN => NaN
  | PosInf, _ | _, PosInf => PosInf
  | NegInf, x | x, NegInf => x
  | Fin p, Fin q => if Qle_bool p q then Fin q else Fin p
  end.

Definition Math_min (a b : jsnum) : jsnum :=
  match a, b with
  | NaN, _ | _, NaN => NaN
  | NegInf, _ | _, NegInf => NegInf
  | PosInf, x | x, PosInf => x
  | Fin p, Fin q => if Qle_bool p q then Fin p else Fin q
  end.

(** Own properties of an object, in insertion order and without repeated
    keys.  [obj_define] is [CreateDataProperty]: a key already present
    keeps its place and takes the new value. *)
Fixpoint obj_define (props : list (string * jsval)) (k : string) (v : jsval)
  : list (string * jsval) :=
  match props with
  | [] => [(k, v)]
  | (k', v') :: rest =>
      if String.eqb k' k then (k, v) :: rest
      else (k', v') :: obj_define rest k v
  end.

Fixpoint obj_lookup (props : list (string * jsval)) (k : string) : option jsval :=
  match props with
  | [] => None
  | (k', v) :: rest => if String.eqb k' k then Some v else obj_lookup rest k
  end.

(** ** [JSON.parse] *)

Module JSON.

Definition is_ws (c : ascii) : bool :=
  let n := nat_of_ascii c in
  (n =? 32)%nat || (n =? 9)%nat || (n =? 10)%nat || (n =? 13)%nat.

Fixpoint skip_ws (s : string) : string :=
  match s with
  | String c s' => if is_ws c then skip_ws s' else s
  | EmptyString => ""
  end.

Definition digit_val (c : ascii) : option Z :=
  let n := nat_of_ascii c in
  if ((48 <=? n)%nat && (n <=? 57)%nat) then Some (Z.of_nat (n - 48)) else None.

Definition hex_val (c : ascii) : option Z :=
  let n := nat_of_ascii c in
  if ((48 <=? n)%nat && (n <=? 57)%nat) then Some (Z.of_nat (n - 48))
  else if ((97 <=? n)%nat && (n <=? 102)%nat) then Some (Z.of_nat (n - 87))
  else if ((65 <=? n)%nat && (n <=? 70)%nat) then Some (Z.of_nat (n - 55))
  else None.

(** Reads the longest run of decimal digits: its value on top of [acc], the
    number of digits read, and the rest of the input. *)
Fixpoint digits (s : string) (acc : Z) (count : nat) : Z * nat * string :=
  match s with
  | String c s' =>
      match digit_val c with
      | Some d => digits s' (10 * acc + d)%Z (S count)
      | None => (acc, count, s)
      end
  | EmptyString => (acc, count, "")
  end.

(** The number [m * 10^e]. *)
Definition decimal (m e : Z) : Q :=
  if (0 <=? e)%Z then inject_Z (m * 10 ^ e)
  else Qred (Qmake m (Z.to_pos (10 ^ (- e)))).

Definition exponent_part (s : string) : option (Z * string) :=
  match s with
  | String c s' =>
      if Ascii.eqb c "e" || Ascii.eqb c "E" then
        let '(neg, s1) :=
          match s' with
          | String "-" t => (true, t)
          | String "+" t => (false, t)
          | _ => (false, s')
          end in
        match digits s1 0 0 with
        | (_, O, _) => None
        | (e, _, rest) => Some (if neg then (- e)%Z else e, rest)
        end
      else Some (0%Z, s)
  | EmptyString => Some (0%Z, "")
  end.

Definition fraction_part (s : string) : option (Z * nat * string) :=
  match s with
  | String "." s' =>
      match digits s' 0 0 with
      | (_, O, _) => None
      | r => Some r
      end
  | _ => Some (0%Z, O, s)
  end.

(** [-? int frac? exp?] where [int] is [0] or starts with a non-zero digit *)
Definition parse_number (s : string) : option (Q * string) :=
  let '(neg, s0) :=
    match s with
    | String "-" t => (true, t)
    | _ => (false, s)
    end in
  let int_part :=
    match s0 with
    | String "0" t => Some (0%Z, t)
    | _ => match digits s0 0 0 with
           | (_, O, _) => None
           | (i, _, t) => Some (i, t)
           end
    end in
  match int_part with
  | None => None
  | Some (i, s1) =>
      match fraction_part s1 with
      | None => None
      | Some (f, flen, s2) =>
          match exponent_part s2 with
          | None => None
          | Some (e, s3) =>
              let m := (i * 10 ^ Z.of_nat flen + f)%Z in
              let m := if neg then (- m)%Z else m in
              Some (decimal m (e - Z.of_nat flen), s3)
          end
      end
  end.

(** A code unit written [\uXXXX], as the bytes of its UTF-8 encoding. *)
Definition code_unit (n : Z) (acc : string) : string :=
  let byte z := ascii_of_N (Z.to_N z) in
  if (n <? 128)%Z then String (byte n) acc
  else if (n <? 2048)%Z then
    String (byte (192 + n / 64)%Z) (String (byte (128 + n mod 64)%Z) acc)
  else
    String (byte (224 + n / 4096)%Z)
      (String (byte (128 + (n / 64) mod 64)%Z)
         (String (byte (128 + n mod 64)%Z) acc)).

(** The characters of a string literal after its opening quote, up to the
    closing quote.  Control characters must be escaped. *)
Fixpoint string_body (s : string) : option (string * string) :=
  match s with
  | EmptyString => None
  | String c s' =>
      if Ascii.eqb c Str.dquote then Some ("", s')
      else if Ascii.eqb c "\" then
        match s' with
        | String e s'' =>
            let plain (x : ascii) :=
              match string_body s'' with
              | Some (t, r) => Some (String x t, r)
              | None => None
              end in
            if Ascii.eqb e Str.dquote || Ascii.eqb e "\" || Ascii.eqb e "/"
            then plain e
            else if Ascii.eqb e "b" then plain (ascii_of_nat 8)
            else if Ascii.eqb e "f" then plain (ascii_of_nat 12)
            else if Ascii.eqb e "n" then plain (ascii_of_nat 10)
            else if Ascii.eqb e "r" then plain (ascii_of_nat 13)
            else if Ascii.eqb e "t" then plain (ascii_of_nat 9)
            else if Ascii.eqb e "u" then
              match s'' with
              | String h1 (String h2 (String h3 (String h4 r0))) =>
                  match hex_val h1, hex_val h2, hex_val h3, hex_val h4 with
                  | Some a, Some b, Some c', Some d =>
                      match string_body r0 with
                      | Some (t, r) =>
                          Some (code_unit (((a * 16 + b) * 16 + c') * 16 + d) t, r)
                      | None => None
                      end
                  | _, _, _, _ => None
                  end
              | _ => None
              end
            else None
        | EmptyString => None
        end
      else if (nat_of_ascii c <? 32)%nat then None
      else
        match string_body s' with
        | Some (t, r) => Some (String c t, r)
        | None => None
        end
  end.

Definition literal (word : string) (v : jsval) (s : string) : option (jsval * string) :=
  if String.prefix word s then Some (v, Str.drop (String.length word) s) else None.

Fixpoint value (fuel : nat) (s : string) {struct fuel} : option (jsval * string) :=
  match fuel with
  | O => None
  | S f =>
      match skip_ws s with
      | EmptyString => None
      | String c rest as s0 =>
          if Ascii.eqb c "n" then literal "null" JNull s0
          else if Ascii.eqb c "t" then literal "true" (JBool true) s0
          else if Ascii.eqb c "f" then literal "false" (JBool false) s0
          else if Ascii.eqb c Str.dquote then
            match string_body rest with
            | Some (t, r) => Some (JStr t, r)
            | None => None
            end
          else if Ascii.eqb c "[" then
            match skip_ws rest with
            | String "]" r => Some (JArr [], r)
            | r => elements f r []
            end
          else if Ascii.eqb c "{" then
            match skip_ws rest with
            | String "}" r => Some (JObj [], r)
            | r => members f r []
            end
          else
            match parse_number s0 with
            | Some (q, r) => Some (JNum (Fin q), r)
            | None => None
            end
      end
  end

with elements (fuel : nat) (s : string) (acc : list jsval) {struct fuel}
  : option (jsval * string) :=
  match fuel with
  | O => None
  | S f =>
      match value f s with
      | Some (v, r) =>
          match skip_ws r with
          | String "," r' => elements f r' (v :: acc)
          | String "]" r' => Some (JArr (List.rev (v :: acc)), r')
          | _ => None
          end
      | None => None
      end
  end

with members (fuel : nat) (s : string) (acc : list (string * jsval)) {struct fuel}
  : option (jsval * string) :=
  match fuel with
  | O => None
  | S f =>
      match skip_ws s with
      | String c0 r0 =>
          if negb (Ascii.eqb c0 Str.dquote) then None else
          match string_body r0 with
          | Some (k, r1) =>
              match skip_ws r1 with
              | String ":" r2 =>
                  match value f r2 with
                  | Some (v, r3) =>
                      let acc' := obj_define acc k v in
                      match skip_ws r3 with
                      | String "," r' => members f r' acc'
                      | String "}" r' => Some (JObj acc', r')
                      | _ => None
                      end
                  | None => None
                  end
              | _ => None
              end
          | None => None
          end
      | EmptyString => None
      end
  end.

(** [JSON.parse(text)]: [None] stands for the [SyntaxError].  Of two
    consecutive calls of the three functions above at least one consumes a
    character, so twice the length of the text is fuel enough. *)
Definition parse (text : string) : option jsval :=
  match value (2 * String.length text + 2) text with
  | Some (v, r) =>
      match skip_ws r with
      | EmptyString => Some v
      | _ => None
      end
  | None => None
  end.

End JSON.

(** ** Type conversions of the language *)

Module Conv.

(** [ToBoolean] *)
Definition ToBoolean (v : jsval) : bool :=
  match v with
  | JUndefined | JNull => false
  | JBool b => b
  | JNum NaN => false
  | JNum (Fin q) => negb (Qeq_bool q 0)
  | JNum _ => true
  | JStr s => negb (String.eqb s "")
  | JArr _ | JObj _ => true
  end.

(** [a || b] *)
Definition or_else (a b : jsval) : jsval := if ToBoolean a then a else b.

Fixpoint zeros (n : nat) : string :=
  match n with
  | O => ""
  | S n' => String "0" (zeros n')
  end.

Definition digits_of (z : Z) : string := NilEmpty.string_of_uint (N.to_uint (Z.to_N z)).

(** [m = s * 10^t] with [s] not a multiple of ten ([m] positive) *)
Fixpoint strip_zeros (fuel : nat) (m t : Z) : Z * Z :=
  match fuel with
  | O => (m, t)
  | S f =>
      if (m mod 10 =? 0)%Z && negb (m =? 0)%Z
      then strip_zeros f (m / 10)%Z (t + 1)%Z
      else (m, t)
  end.

(** The least [j <= bound] with [q] dividing [10^j], counted from [j]. *)
Fixpoint decimal_places (bound : nat) (q j : Z) : option Z :=
  if ((10 ^ j) mod q =? 0)%Z then Some j
  else match bound with
       | O => None
       | S b => decimal_places b q (j + 1)%Z
       end.

(** [Number::toString] for radix ten.  The digits [sd] (there are [k] of
    them) and the position [n] of the decimal point are laid out as the
    language prescribes.  Finite values are decimal fractions here (they
    come from decimal and hexadecimal literals); any other rational would
    be cut after twenty places. *)
Definition layout (sd : string) (k n : Z) : string :=
  if ((k <=? n) && (n <=? 21))%Z then sd ++ zeros (Z.to_nat (n - k))
  else if ((0 <? n) && (n <=? 21))%Z
  then Str.substring0 (Z.to_nat n) sd ++ "." ++ Str.drop (Z.to_nat n) sd
  else if ((-6 <? n) && (n <=? 0))%Z then "0." ++ zeros (Z.to_nat (- n)) ++ sd
  else
    let e := (n - 1)%Z in
    let es := (if (e <? 0)%Z then "-" else "+") ++ digits_of (Z.abs e) in
    if (k =? 1)%Z then sd ++ "e" ++ es
    else Str.substring0 1 sd ++ "." ++ Str.drop 1 sd ++ "e" ++ es.

Definition positive_toString (p : Z) (q : positive) : string :=
  let j := match decimal_places (Pos.size_nat q) (Zpos q) 0 with
           | Some j => j
           | None => 20%Z
           end in
  let m := (p * 10 ^ j / Zpos q)%Z in
  let '(s, t) := strip_zeros (String.length (digits_of m)) m 0 in
  let sd := digits_of s in
  let k := Z.of_nat (String.length sd) in
  layout sd k (k + t - j).

Definition Number_toString (x : jsnum) : string :=
  match x with
  | NaN => "NaN"
  | PosInf => "Infinity"
  | NegInf => "-Infinity"
  | Fin q =>
      match Qnum q with
      | Z0 => "0"
      | Zpos p => positive_toString (Zpos p) (Qden q)
      | Zneg p => "-" ++ positive_toString (Zpos p) (Qden q)
      end
  end.

(** Digits of a given radix, all of the string. *)
Fixpoint radix_digits (radix : Z) (s : string) (acc : Z) : option Z :=
  match s with
  | EmptyString => Some acc
  | String c s' =>
      match JSON.hex_val c with
      | Some d => if (d <? radix)%Z then radix_digits radix s' (radix * acc + d)%Z
                  else None
      | None => None
      end
  end.

Definition non_decimal (radix : Z) (s : string) : jsnum :=
  match s with
  | EmptyString => NaN
  | _ => match radix_digits radix s 0 with
         | Some z => Fin (inject_Z z)
         | None => NaN
         end
  end.

(** [StrDecimalLiteral] after its sign: [Infinity], or digits with an
    optional fraction and exponent, at least one digit in all. *)
Definition unsigned_decimal (s : string) : option jsnum :=
  if String.eqb s "Infinity" then Some PosInf else
  let '(i, ilen, s1) := JSON.digits s 0 0 in
  let '(f, flen, s2) :=
    match s1 with
    | String "." t => JSON.digits t 0 0
    | _ => (0%Z, O, s1)
    end in
  match (ilen + flen)%nat with
  | O => None
  | _ =>
      match JSON.exponent_part s2 with
      | Some (e, EmptyString) =>
          Some (Fin (JSON.decimal (i * 10 ^ Z.of_nat flen + f) (e - Z.of_nat flen)))
      | _ => None
      end
  end.

Definition negate (x : jsnum) : jsnum :=
  match x with
  | NaN => NaN
  | PosInf => NegInf
  | NegInf => PosInf
  | Fin q => Fin (Qopp q)
  end.

(** [StringToNumber]: the numeric value of a string, [NaN] when it does not
    read as a number; the empty or blank string reads as zero. *)
Definition StringToNumber (s : string) : jsnum :=
  match Str.trim s with
  | EmptyString => Fin 0
  | String "0" (String "x" t) | String "0" (String "X" t) => non_decimal 16 t
  | String "0" (String "o" t) | String "0" (String "O" t) => non_decimal 8 t
  | String "0" (String "b" t) | String "0" (String "B" t) => non_decimal 2 t
  | String "-" t =>
      match unsigned_decimal t with Some x => negate x | None => NaN end
  | String "+" t =>
      match unsigned_decimal t with Some x => x | None => NaN end
  | t =>
      match unsigned_decimal t with Some x => x | None => NaN end
  end.

(** [ToString].  An array prints its elements separated by commas, [null]
    elements as nothing.  An object created by [JSON.parse] prints as
    [[object Object]], unless it has an own property named [toString]: that
    property is not callable and shadows the inherited method, so the
    conversion raises a [TypeError]. *)
Fixpoint ToString (v : jsval) : completion string :=
  match v with
  | JUndefined => Normal "undefined"
  | JNull => Normal "null"
  | JBool true => Normal "true"
  | JBool false => Normal "false"
  | JNum n => Normal (Number_toString n)
  | JStr s => Normal s
  | JArr l =>
      (fix join (first : bool) (l : list jsval) : completion string :=
         match l with
         | [] => Normal ""
         | x :: r =>
             sx <- match x with
                   | JUndefined | JNull => Normal ""
                   | _ => ToString x
                   end ;;
             sr <- join false r ;;
             Normal ((if first then "" else ",") ++ sx ++ sr)
         end) true l
  | JObj props =>
      match obj_lookup props "toString" with
      | Some _ => Throw
      | None => Normal "[object Object]"
      end
  end.

(** [ToNumber], the conversion behind [Number(v)] *)
Definition ToNumber (v : jsval) : completion jsnum :=
  match v with
  | JUndefined => Normal NaN
  | JNull => Normal (Fin 0)
  | JBool true => Normal (Fin 1)
  | JBool false => Normal (Fin 0)
  | JNum n => Normal n
  | JStr s => Normal (StringToNumber s)
  | JArr _ => s <- ToString v ;; Normal (StringToNumber s)
  | JObj props =>
      match obj_lookup props "toString" with
      | Some _ => Throw
      | None => Normal NaN
      end
  end.

(** [v.name] for the property names the route reads ([content],
    [extracted_text], [main_theme], [confidence], [categories], [images]):
    none is defined on a prototype, so only an object's own properties
    count; reading a property of [null] or [undefined] throws. *)
Definition Get (v : jsval) (name : string) : completion jsval :=
  match v with
  | JUndefined | JNull => Throw
  | JObj props =>
      match obj_lookup props name with
      | Some x => Normal x
      | None => Normal JUndefined
      end
  | _ => Normal JUndefined
  end.

End Conv.

(** ** Objects as the route iterates them *)

Module Obj.

Import Conv.

(** An array index is the canonical decimal name of an integer below
    [2^32 - 1]. *)
Definition array_index (k : string) : option Z :=
  match k with
  | EmptyString => None
  | String "0" EmptyString => Some 0%Z
  | String "0" _ => None
  | _ =>
      match JSON.digits k 0 0 with
      | (z, _, EmptyString) => if (z <? 2 ^ 32 - 1)%Z then Some z else None
      | _ => None
      end
  end.

Definition entry : Type := string * jsval.

Fixpoint insert_index (e : Z * entry) (l : list (Z * entry)) : list (Z * entry) :=
  match l with
  | [] => [e]
  | x :: r => if (fst e <=? fst x)%Z then e :: l else x :: insert_index e r
  end.

Definition indexed (props : list entry) : list (Z * entry) :=
  flat_map (fun e => match array_index (fst e) with
                     | Some z => [(z, e)]
                     | None => []
                     end) props.

Definition named (props : list entry) : list entry :=
  filter (fun e => match array_index (fst e) with
                   | Some _ => false
                   | None => true
                   end) props.

(** The order of [OrdinaryOwnPropertyKeys]: array indices ascending, then
    the other names as they were created. *)
Definition own_entries (props : list entry) : list entry :=
  (map snd (fold_right insert_index [] (indexed props)) ++ named props)%list.

Fixpoint numbered {A} (start : nat) (l : list A) : list (nat * A) :=
  match l with
  | [] => []
  | x :: r => (start, x) :: numbered (S start) r
  end.

Fixpoint chars (s : string) : list jsval :=
  match s with
  | EmptyString => []
  | String c s' => JStr (String c "") :: chars s'
  end.

(** [Object.entries(v)] *)
Definition Object_entries (v : jsval) : completion (list entry) :=
  match v with
  | JUndefined | JNull => Throw
  | JBool _ | JNum _ => Normal []
  | JStr s => Normal (map (fun p => (Str.dec (fst p), snd p)) (numbered 0 (chars s)))
  | JArr l => Normal (map (fun p => (Str.dec (fst p), snd p)) (numbered 0 l))
  | JObj props => Normal (own_entries props)
  end.

(** [acc[k] = v] on an object made by the literal [{}].  The name
    [__proto__] is an accessor inherited from [Object.prototype]: assigning
    an object to it replaces the prototype of [acc] and creates no own
    property. Every other name the route assigns becomes an own property. *)
Definition assign (props : list entry) (k : string) (v : jsval) : list entry :=
  if String.eqb k "__proto__" then props else obj_define props k v.

(** [SameValueZero(v, index)] for an integer [index] *)
Definition same_as_index (index : nat) (v : jsval) : bool :=
  match v with
  | JNum (Fin q) => Qeq_bool q (inject_Z (Z.of_nat index))
  | _ => false
  end.

(** [images.includes(index)] for a truthy [images]: the array method, the
    string method (which searches for the decimal text of [index]), and a
    [TypeError] for any other value, which has no callable [includes]. *)
Definition includes (images : jsval) (index : nat) : completion bool :=
  match images with
  | JArr l => Normal (existsb (same_as_index index) l)
  | JStr s => Normal (Str.includes s (Str.dec index))
  | _ => Throw
  end.

(** [Array.prototype.find] with a predicate that may throw *)
Fixpoint find {A} (p : A -> completion bool) (l : list A) : completion (option A) :=
  match l with
  | [] => Normal None
  | x :: r =>
      b <- p x ;;
      if b then Normal (Some x) else find p r
  end.

End Obj.

(** ** The route *)

(** An uploaded file part: [file.type], [file.name], and the base64 text of
    its bytes ([Buffer.from(await file.arrayBuffer()).toString('base64')]). *)
Record File : Type := {
  file_type : string;
  file_name : string;
  file_base64 : string
}.

(** An element of [allItems]; its [type] field is always ['image']. *)
Record Item : Type := {
  data : string;
  name : option string
}.

Definition item_type : string := "image".

(** An element of [initialAnalyses] *)
Record InitialAnalysis : Type := {
  index : nat;
  content : string;
  extracted_text : string;
  main_theme : string;
  confidence : jsnum;
  fileName : string
}.

(** The text sent to the inference client, reduced to the parts that vary:
    the fixed instruction ([baseAnalysisPrompt], or the category
    instruction with the list of analyses it prints) and the user's
    instructions when there are some. *)
Inductive Instruction : Type :=
| baseAnalysisPrompt
| categoryPrompt (analyses : list InitialAnalysis).

Record Prompt : Type := {
  instruction : Instruction;
  userInstructions : option string
}.

(** [inlineData]: base64 text and mime type *)
Record InlineData : Type := {
  inline_data : string;
  mimeType : string
}.

(** The argument of [genAI.models.generateContent] *)
Record GenRequest : Type := {
  text : Prompt;
  inlineData : option InlineData
}.

(** What a call to the inference client does: the promise rejects, or it
    resolves to a result whose [text] may be missing. *)
Inductive Outcome : Type :=
| Rejects
| Resolves (text : option string).

(** The collaborators.  [sharp_jpeg] is the codec ([None] when it throws);
    [generateContent k r] is the outcome of the [k]-th call, made with
    request [r], so that no two calls are assumed to agree. *)
Record World : Type := {
  sharp_jpeg : File -> option string;
  generateContent : nat -> GenRequest -> Outcome
}.

(** Computations that call the inference client.  The state is the log of
    the requests made so far; [call] is the only operation that consults
    the client, and it records its request. *)
Definition Eff (A : Type) : Type := list GenRequest -> A * list GenRequest.

Definition ret {A} (a : A) : Eff A := fun log => (a, log).

Definition bindE {A B} (c : Eff A) (k : A -> Eff B) : Eff B :=
  fun log => let '(a, log') := c log in k a log'.

Notation "x <~ c ;; k" := (bindE c (fun x => k))
  (at level 61, c at next level, right associativity).

Definition call (w : World) (r : GenRequest) : Eff Outcome :=
  fun log => (generateContent w (List.length log) r, (log ++ [r])%list).

Inductive Request : Type :=
| FormData (files : list File) (images : list string) (userPrompt : option string)
| JsonBody (images : list string) (userPrompt : option string)
| Unreadable.

(** An element of [results] *)
Record Analysis : Type := {
  an_content : string;
  category : string;
  an_extracted_text : string;
  an_confidence : jsnum
}.

Record AnalysisResult : Type := {
  res_index : nat;
  analysis : Analysis;
  status : string;
  fileType : string;
  res_fileName : string
}.

Inductive Response : Type :=
| Json200 (results : list AnalysisResult) (categories : jsval) (userPrompt : option string)
| JsonError (code : nat) (error : string).

Module Route.

Import Conv.

(** A string used as a condition: absent and empty are both falsy. *)
Definition truthy (s : option string) : option string :=
  match s with
  | Some EmptyString => None
  | _ => s
  end.

Definition buildPromptWithUserInstructions (basePrompt : Instruction)
    (userPrompt : option string) : Prompt :=
  {| instruction := basePrompt; userInstructions := truthy userPrompt |}.

Definition processFile (w : World) (file : File) : string * string :=
  let isHeic := String.eqb (file_type file) "image/heic"
                || Str.endsWith (Str.toLowerCase (file_name file)) ".heic" in
  if isHeic then
    match sharp_jpeg w file with
    | Some convertedBuffer => (convertedBuffer, "image/jpeg")
    | None => (file_base64 file, file_type file)
    end
  else (file_base64 file, file_type file).

Definition accepted (file : File) : bool :=
  Str.startsWith (file_type file) "image/"
  || Str.endsWith (Str.toLowerCase (file_name file)) ".heic".

Definition fileItem (w : World) (file : File) : Item :=
  let '(buffer, mime) := processFile w file in
  {| data := "data:" ++ mime ++ ";base64," ++ buffer;
     name := Some (file_name file) |}.

Definition allItems (w : World) (files : list File) (imageDataUrls : list string)
  : list Item :=
  (map (fileItem w) (filter accepted files)
   ++ map (fun imageData => {| data := imageData; name := None |}) imageDataUrls)%list.

Fixpoint skip_lowercase (s : string) (count : nat) : nat * string :=
  match s with
  | String c s' =>
      let n := nat_of_ascii c in
      if ((97 <=? n)%nat && (n <=? 122)%nat) then skip_lowercase s' (S count)
      else (count, s)
  | EmptyString => (count, "")
  end.

(** [data.replace(/^data:image\/[a-z]+;base64,/, '')] *)
Definition base64Data (d : string) : string :=
  if String.prefix "data:image/" d then
    match skip_lowercase (Str.drop 11 d) 0 with
    | (O, _) => d
    | (_, r) => if String.prefix ";base64," r then Str.drop 8 r else d
    end
  else d.

Definition itemRequest (userPrompt : option string) (item : Item) : GenRequest :=
  {| text := buildPromptWithUserInstructions baseAnalysisPrompt userPrompt;
     inlineData :=
       Some {| inline_data := base64Data (data item);
               mimeType := if Str.includes (data item) "data:image/jpeg"
                           then "image/jpeg" else "image/png" |} |}.

(** [result.text?.trim() || ''] *)
Definition responseText (t : option string) : string :=
  match t with
  | Some s => Str.trim s
  | None => ""
  end.

(** The three [replace] calls and the [trim] that strip the code fences. *)
Definition cleanResponseText (response : string) : string :=
  Str.trim
    (Str.remove_leading "json"
       (Str.remove_all "```" 0 (Str.remove_all "```json" 0 response))).

Definition fallbackAnalysis (i : nat) : jsval :=
  JObj [("content", JStr ("image_document_" ++ Str.dec (i + 1)));
        ("extracted_text", JStr "Could not extract text");
        ("main_theme", JStr "misc");
        ("confidence", JInt 20)].

(** The value of [analysis] after the nested [try]/[catch] blocks. *)
Definition parseAnalysis (i : nat) (clean : string) : jsval :=
  match JSON.parse clean with
  | Some v => v
  | None =>
      let recovered :=
        match Str.match_braces clean with
        | Some jsonMatch =>
            match JSON.parse jsonMatch with
            | Some v => v
            | None => JNull
            end
        | None => JUndefined
        end in
      if ToBoolean recovered then recovered else fallbackAnalysis i
  end.

Definition itemFileName (item : Item) (i : nat) : string :=
  match truthy (name item) with
  | Some n => n
  | None => item_type ++ "_" ++ Str.dec (i + 1)
  end.

(** [Number(c) || 50] *)
Definition number_or_50 (n : jsnum) : jsnum :=
  if ToBoolean (JNum n) then n else Fin 50.

Definition clampConfidence (c : jsval) : completion jsnum :=
  n <- ToNumber c ;;
  Normal (Math_min (Fin 100) (Math_max (Fin 0) (number_or_50 n))).

(** The object returned at the end of the [try] block of phase 1. *)
Definition cleanedAnalysis (item : Item) (i : nat) (parsed : jsval)
  : completion InitialAnalysis :=
  c <- Get parsed "content" ;;
  cs <- ToString (or_else c (JStr ("image_document_" ++ Str.dec (i + 1)))) ;;
  t <- Get parsed "extracted_text" ;;
  ts <- ToString (or_else t (JStr "")) ;;
  m <- Get parsed "main_theme" ;;
  ms <- ToString (or_else m (JStr "misc")) ;;
  k <- Get parsed "confidence" ;;
  conf <- clampConfidence k ;;
  Normal {| index := i;
            content := Str.underscore_spaces false cs;
            extracted_text := Str.substring0 150 ts;
            main_theme := Str.toLowerCase ms;
            confidence := conf;
            fileName := itemFileName item i |}.

(** The object returned by the [catch] block of phase 1. *)
Definition errorAnalysis (item : Item) (i : nat) : InitialAnalysis :=
  {| index := i;
     content := "error_image_" ++ Str.dec (i + 1);
     extracted_text := "Processing failed";
     main_theme := "misc";
     confidence := Fin 0;
     fileName := itemFileName item i |}.

(** One callback of phase 1, given the outcome of its inference call. *)
Definition analyzeOutcome (item : Item) (i : nat) (o : Outcome) : InitialAnalysis :=
  match o with
  | Rejects => errorAnalysis item i
  | Resolves t =>
      let parsed := parseAnalysis i (cleanResponseText (responseText t)) in
      match cleanedAnalysis item i parsed with
      | Normal a => a
      | Throw => errorAnalysis item i
      end
  end.

Definition analyzeItem (w : World) (userPrompt : option string) (i : nat) (item : Item)
  : Eff InitialAnalysis :=
  o <~ call w (itemRequest userPrompt item) ;;
  ret (analyzeOutcome item i o).

Fixpoint mapiE {A B} (f : nat -> A -> Eff B) (start : nat) (l : list A) : Eff (list B) :=
  match l with
  | [] => ret []
  | x :: r =>
      y <~ f start x ;;
      ys <~ mapiE f (S start) r ;;
      ret (y :: ys)
  end.

(** Phase 1: [Promise.all(allItems.map(...))].  The callbacks run in the
    order of the items up to their inference call, and each catches its own
    errors, so the promise resolves to one analysis per item, in order. *)
Definition initialAnalyses (w : World) (userPrompt : option string) (items : list Item)
  : Eff (list InitialAnalysis) :=
  mapiE (analyzeItem w userPrompt) 0 items.

(** [[...new Set(l)]]: the distinct elements in order of first occurrence *)
Fixpoint distinct (l : list string) (seen : list string) : list string :=
  match l with
  | [] => []
  | x :: r =>
      if existsb (String.eqb x) seen then distinct r seen
      else x :: distinct r (x :: seen)
  end.

Definition themes (analyses : list InitialAnalysis) : list string :=
  distinct (map main_theme analyses) [].

(** The positions of the analyses whose theme is [theme] *)
Definition imageIndices (analyses : list InitialAnalysis) (theme : string) : list nat :=
  map fst (filter (fun p => String.eqb (main_theme (snd p)) theme)
             (Obj.numbered 0 analyses)).

Definition themeCategory (analyses : list InitialAnalysis) (theme : string) : jsval :=
  JObj [("description", JStr ("Images related to " ++ theme));
        ("images", JArr (map JInt (imageIndices analyses theme)))].

(** The [catch] block of phase 2: one category per theme, built by
    [reduce] on the object literal [{}]. *)
Definition fallbackCategorization (analyses : list InitialAnalysis) : jsval :=
  JObj [("categories",
         JObj (fold_left
                 (fun acc theme => Obj.assign acc theme (themeCategory analyses theme))
                 (themes analyses) []))].

Definition categoryRequest (userPrompt : option string) (analyses : list InitialAnalysis)
  : GenRequest :=
  {| text := {| instruction := categoryPrompt analyses;
                userInstructions := truthy userPrompt |};
     inlineData := None |}.

(** Phase 2, given the outcome of the aggregate call: the parsed response,
    or the theme categories when the call rejects or [JSON.parse] throws. *)
Definition categorizeOutcome (analyses : list InitialAnalysis) (o : Outcome) : jsval :=
  match o with
  | Rejects => fallbackCategorization analyses
  | Resolves t =>
      match JSON.parse (cleanResponseText (responseText t)) with
      | Some v => v
      | None => fallbackCategorization analyses
      end
  end.

Definition categorization (w : World) (userPrompt : option string)
    (analyses : list InitialAnalysis) : Eff jsval :=
  o <~ call w (categoryRequest userPrompt analyses) ;;
  ret (categorizeOutcome analyses o).

(** The predicate of [find]:
    [categoryInfo.images && categoryInfo.images.includes(index)] *)
Definition listsIndex (i : nat) (e : Obj.entry) : completion bool :=
  images <- Get (snd e) "images" ;;
  if ToBoolean images then Obj.includes images i else Normal false.

(** [Object.entries(categorization.categories || {})] *)
Definition categoryEntries (cat : jsval) : completion (list Obj.entry) :=
  cats <- Get cat "categories" ;;
  Obj.Object_entries (or_else cats (JObj [])).

Definition categoryName (cat : jsval) (i : nat) : completion string :=
  entries <- categoryEntries cat ;;
  categoryEntry <- Obj.find (listsIndex i) entries ;;
  Normal match categoryEntry with
         | Some e => fst e
         | None => "uncategorized"
         end.

(** One callback of phase 3 *)
Definition buildResult (cat : jsval) (i : nat) (a : InitialAnalysis)
  : completion AnalysisResult :=
  c <- categoryName cat i ;;
  Normal {| res_index := index a;
            analysis := {| an_content := content a;
                           category := c;
                           an_extracted_text := extracted_text a;
                           an_confidence := confidence a |};
            status := "success";
            fileType := "image";
            res_fileName := fileName a |}.

Fixpoint mapiM {A B} (f : nat -> A -> completion B) (start : nat) (l : list A)
  : completion (list B) :=
  match l with
  | [] => Normal []
  | x :: r =>
      y <- f start x ;;
      ys <- mapiM f (S start) r ;;
      Normal (y :: ys)
  end.

(** Phase 3: [initialAnalyses.map(...)]; an exception leaves the [map]. *)
Definition results (cat : jsval) (analyses : list InitialAnalysis)
  : completion (list AnalysisResult) :=
  mapiM (buildResult cat) 0 analyses.

Definition internalError : Response := JsonError 500 "Internal server error".

(** Phase 3 and the response; an exception reaches the outer [catch]. *)
Definition respond (cat : jsval) (analyses : list InitialAnalysis)
    (userPrompt : option string) : Response :=
  match (rs <- results cat analyses ;;
         cats <- Get cat "categories" ;;
         Normal (Json200 rs (or_else cats (JObj [])) (truthy userPrompt))) with
  | Normal r => r
  | Throw => internalError
  end.

(** Everything after ingestion *)
Definition handle (w : World) (items : list Item) (userPrompt : option string)
  : Eff Response :=
  if (List.length items =? 0)%nat then ret (JsonError 400 "No images provided")
  else if (10 <? List.length items)%nat
  then ret (JsonError 400 "Maximum 10 images allowed")
  else
    analyses <~ initialAnalyses w userPrompt items ;;
    cat <~ categorization w userPrompt analyses ;;
    ret (respond cat analyses userPrompt).

(** The items a request is ingested into; [None] when reading the body
    throws. *)
Definition ingest (w : World) (request : Request)
  : option (list Item * option string) :=
  match request with
  | FormData files images userPrompt => Some (allItems w files images, truthy userPrompt)
  | JsonBody images userPrompt => Some (allItems w [] images, userPrompt)
  | Unreadable => None
  end.

(** The response to a request, and the log of the calls made to the
    inference client while serving it. *)
Definition POST (w : World) (request : Request) : Response * list GenRequest :=
  match ingest w request with
  | Some (items, userPrompt) => handle w items userPrompt []
  | None => (internalError, [])
  end.

End Route.

(** * Statements: auxiliary definitions *)

Import Route Conv.

Unset Implicit Arguments.

(** ** The run of a batch, without the log *)

(** The outcomes of the calls of phase 1 when [k] calls precede them. *)
Fixpoint outcomes (w : World) (userPrompt : option string) (k : nat) (items : list Item)
  : list Outcome :=
  match items with
  | [] => []
  | x :: r => generateContent w k (itemRequest userPrompt x) :: outcomes w userPrompt (S k) r
  end.

(** The analyses of phase 1, from the outcomes of the calls. *)
Fixpoint analysesFrom (start : nat) (items : list Item) (os : list Outcome)
  : list InitialAnalysis :=
  match items, os with
  | x :: r, o :: os' => analyzeOutcome x start o :: analysesFrom (S start) r os'
  | _, _ => []
  end.

(** The analyses, the outcome of the aggregate call and the categorization
    of a batch *)
Definition analysesOf (w : World) (items : list Item) (userPrompt : option string)
  : list InitialAnalysis :=
  analysesFrom 0 items (outcomes w userPrompt 0 items).

Definition aggregateOutcome (w : World) (items : list Item) (userPrompt : option string)
  : Outcome :=
  generateContent w (List.length items)
    (categoryRequest userPrompt (analysesOf w items userPrompt)).

Definition categorizationOf (w : World) (items : list Item) (userPrompt : option string)
  : jsval :=
  categorizeOutcome (analysesOf w items userPrompt) (aggregateOutcome w items userPrompt).

(** The cleaned text of a response *)
Definition cleaned (t : option string) : string :=
  cleanResponseText (responseText t).

(** The aggregate call gave nothing usable: it rejected, or its cleaned
    text is not JSON. *)
Definition unusable (o : Outcome) : bool :=
  match o with
  | Rejects => true
  | Resolves t =>
      match JSON.parse (cleaned t) with
      | Some _ => false
      | None => true
      end
  end.

(** The own properties of the object built by the [catch] block of
    phase 2 *)
Definition themeProps (analyses : list InitialAnalysis) : list Obj.entry :=
  fold_left (fun acc theme => Obj.assign acc theme (themeCategory analyses theme))
    (themes analyses) [].

Definition categoriesOf (r : Response) : jsval :=
  match r with
  | Json200 _ cats _ => cats
  | JsonError _ _ => JUndefined
  end.

Definition resultsOf (r : Response) : list AnalysisResult :=
  match r with
  | Json200 rs _ _ => rs
  | JsonError _ _ => []
  end.

(** ** Categories and their members *)

(** The member-index list of a category: its [images] array, empty when
    the category has no [images] property. *)
Definition memberIndices (categoryInfo : jsval) : option (list jsval) :=
  match categoryInfo with
  | JObj props =>
      match obj_lookup props "images" with
      | Some (JArr l) => Some l
      | Some _ => None
      | None => Some []
      end
  | _ => None
  end.

Definition contains (i : nat) (e : Obj.entry) : bool :=
  match memberIndices (snd e) with
  | Some l => existsb (Obj.same_as_index i) l
  | None => false
  end.

(** The name of the first entry whose member-index list contains [i] *)
Definition firstListing (i : nat) (entries : list Obj.entry) : option string :=
  option_map fst (List.find (contains i) entries).

Definition nameOr (o : option string) : string :=
  match o with
  | Some k => k
  | None => "uncategorized"
  end.


(** ** Numbers *)



(** ** Collaborators and inputs of the worked examples *)

(** A client whose every call fails, and a codec that always fails. *)
Definition offline : World :=
  {| sharp_jpeg := fun _ => None; generateContent := fun _ _ => Rejects |}.

(** A client that answers the [k]-th call with the [k]-th text of a list
    and rejects the calls that have none.  The texts are written with
    apostrophes for the double quotes of JSON. *)
Definition scripted (answers : list (option string)) : World :=
  {| sharp_jpeg := fun _ => None;
     generateContent := fun k _ =>
       match nth_error answers k with
       | Some (Some t) => Resolves (Some (Str.quoted t))
       | _ => Rejects
       end |}.

Definition png (n : string) : File :=
  {| file_type := "image/png"; file_name := n; file_base64 := "iVBORw0KGgo=" |}.

Definition pdf (n : string) : File :=
  {| file_type := "application/pdf"; file_name := n; file_base64 := "JVBERi0=" |}.

Definition tenImagesOnePdf : list File :=
  [png "a.png"; png "b.png"; png "c.png"; png "d.png"; png "e.png"; pdf "report.pdf";
   png "f.png"; png "g.png"; png "h.png"; png "i.png"; png "j.png"].

Definition onePng : list string := ["data:image/png;base64,iVBORw0KGgo="].

Definition anItem : Item := {| data := "data:image/png;base64,iVBORw0KGgo="; name := None |}.

Definition twoPngs : list string :=
  ["data:image/png;base64,iVBORw0KGgo="; "data:image/png;base64,AAAA"].

Definition threePngs : list string :=
  ["data:image/png;base64,iVBORw0KGgo="; "data:image/png;base64,AAAA";
   "data:image/jpeg;base64,/9j/4AAQ"].

Definition threeItems : list Item :=
  map (fun d => {| data := d; name := None |}) threePngs.

(** Three analyses, then a categorization in which the indices 0 and 1 are
    listed twice and the index 2 not at all. *)
Definition overlapping : World :=
  scripted [Some "{'content':'login form','main_theme':'design','confidence':90}";
            Some "{'content':'stack_trace','main_theme':'coding','confidence':70}";
            Some "{'content':'receipt','main_theme':'finance','confidence':80}";
            Some "{'categories': {'notes': {'description':'n','images':[1,0]},
                                  'code': {'description':'c','images':[0]},
                                  '7': {'description':'s','images':[1]}}}"].


(** The call for the first image fails, the call for the second answers,
    the aggregate call fails. *)
Definition firstCallFails : World :=
  scripted [None; Some "{'content':'receipt','main_theme':'finance','confidence':80}"].

(** One analysis, then a categorization wrapped in a sentence. *)
Definition chatty : World :=
  scripted [Some "{'content':'receipt','main_theme':'finance','confidence':80}";
            Some "Here are the categories: {'categories': {'docs': {'description':'d','images':[0]}}}"].

Definition chattyText : option string :=
  Some (Str.quoted
    "Here are the categories: {'categories': {'docs': {'description':'d','images':[0]}}}").

Definition docsCategorization : jsval :=
  JObj [("categories",
         JObj [("docs", JObj [("description", JStr "d"); ("images", JArr [JInt 0])])])].

(** One analysis whose theme is the name [__proto__]; the aggregate call
    fails. *)
Definition protoTheme : World :=
  scripted [Some "{'content':'readme','main_theme':'__proto__','confidence':90}"].

(** One analysis, then the text [null] as categorization. *)
Definition nullCategorization : World :=
  scripted [Some "{'content':'login_form'}"; Some "null"].

(** * The page that calls the route *)

(** The component [Home] of the page ([useState] variables and the handlers
    that change them).  An [alert] is the second component of a handler's
    result.  The page reaches the route through [fetch('/api/analyze')];
    the response it reads is the response of [POST]. *)
Module Client.

Record State : Type := {
  files : list File;
  processing : bool;
  results : list AnalysisResult;
  categories : jsval;
  dragOver : bool;
  downloading : bool;
  userPrompt : string
}.

Definition initial : State :=
  {| files := []; processing := false; results := []; categories := JObj [];
     dragOver := false; downloading := false; userPrompt := "" |}.

(** The filter of [handleFiles] *)
Definition allowed (file : File) : bool :=
  Str.startsWith (file_type file) "image/"
  || String.eqb (file_type file) "application/pdf"
  || Str.endsWith (Str.toLowerCase (file_name file)) ".heic".

Definition handleFiles (selectedFiles : list File) (st : State) : State * option string :=
  let allowedFiles := filter allowed selectedFiles in
  if (10 <? List.length allowedFiles)%nat then (st, Some "Maximum 10 files allowed")
  else ({| files := allowedFiles;
           processing := processing st;
           results := [];
           categories := JObj [];
           dragOver := dragOver st;
           downloading := downloading st;
           userPrompt := userPrompt st |},
        None).

(** [handleDrop], for a drop that carries files *)
Definition handleDrop (dropped : list File) (st : State) : State * option string :=
  handleFiles dropped
    {| files := files st;
       processing := processing st;
       results := results st;
       categories := categories st;
       dragOver := false;
       downloading := downloading st;
       userPrompt := userPrompt st |}.

(** The body of the request built by [processImages]: every selected file
    under [files], and the trimmed instructions when they are not empty. *)
Definition formData (st : State) : Request :=
  let trimmed := Str.trim (userPrompt st) in
  FormData (files st) []
    (if String.eqb trimmed "" then None else Some trimmed).

Definition processImages (w : World) (st : State) : State * option string :=
  match files st with
  | [] => (st, None)
  | _ :: _ =>
      match fst (Route.POST w (formData st)) with
      | Json200 rs cats _ =>
          ({| files := files st;
              processing := false;
              results := rs;
              categories := Conv.or_else cats (JObj []);
              dragOver := dragOver st;
              downloading := downloading st;
              userPrompt := userPrompt st |},
           None)
      | JsonError _ _ =>
          ({| files := files st;
              processing := false;
              results := results st;
              categories := categories st;
              dragOver := dragOver st;
              downloading := downloading st;
              userPrompt := userPrompt st |},
           Some "Error processing images. Please try again.")
      end
  end.

(** The part of [s] after its last dot, if it has a dot. *)
Fixpoint after_last_dot (s : string) : option string :=
  match s with
  | EmptyString => None
  | String c s' =>
      match after_last_dot s' with
      | Some t => Some t
      | None => if Ascii.eqb c "." then Some s' else None
      end
  end.

(** [name.split('.').pop()] *)
Definition extension (name : string) : string :=
  match after_last_dot name with
  | Some t => t
  | None => name
  end.

(** [generateFileName]; [date] is the day of the download,
    [new Date().toISOString().split('T')[0]]. *)
Definition generateFileName (date : string) (file : File) (a : Analysis) : string :=
  an_content a ++ "_" ++ date ++ "." ++ extension (file_name file).

(** One round of the loop of [downloadOrganizedZip]: the folder, the file
    name and the file handed to the archive for a result, if any. *)
Definition archiveEntry (date : string) (fs : list File) (result : AnalysisResult)
  : option (string * string * File) :=
  if String.eqb (status result) "success" then
    match nth_error fs (res_index result) with
    | Some file =>
        Some (category (analysis result),
              generateFileName date file (analysis result),
              file)
    | None => None
    end
  else None.

(** The files [downloadOrganizedZip] adds to the folders of the archive, in
    the order it adds them. *)
Definition archiveEntries (date : string) (st : State) : list (string * string * File) :=
  if (List.length (results st) =? 0)%nat || (List.length (files st) =? 0)%nat then []
  else flat_map (fun result => match archiveEntry date (files st) result with
                               | Some e => [e]
                               | None => []
                               end) (results st).

(** The state after [downloadOrganizedZip] *)
Definition downloadOrganizedZip (st : State) : State :=
  if (List.length (results st) =? 0)%nat || (List.length (files st) =? 0)%nat then st
  else {| files := files st;
          processing := processing st;
          results := results st;
          categories := categories st;
          dragOver := dragOver st;
          downloading := false;
          userPrompt := userPrompt st |}.

(** What the user can do on the page: every handler bound in the markup.
    A click on the process button comes with the collaborators as they
    behave while that request is served. *)
Inductive Event : Type :=
| ChooseFiles (selected : list File)
| DropFiles (dropped : list File)
| DragOver
| DragLeave
| TypePrompt (value : string)
| ClickProcess (w : World)
| ClickDownload.

Definition step (e : Event) (st : State) : State :=
  match e with
  | ChooseFiles selected => fst (handleFiles selected st)
  | DropFiles dropped => fst (handleDrop dropped st)
  | DragOver =>
      {| files := files st; processing := processing st; results := results st;
         categories := categories st; dragOver := true;
         downloading := downloading st; userPrompt := userPrompt st |}
  | DragLeave =>
      {| files := files st; processing := processing st; results := results st;
         categories := categories st; dragOver := false;
         downloading := downloading st; userPrompt := userPrompt st |}
  | TypePrompt value =>
      {| files := files st; processing := processing st; results := results st;
         categories := categories st; dragOver := dragOver st;
         downloading := downloading st; userPrompt := value |}
  | ClickProcess w => fst (processImages w st)
  | ClickDownload => downloadOrganizedZip st
  end.

(** The state after a sequence of events, the first event first *)
Definition run (events : list Event) (st : State) : State :=
  fold_left (fun s e => step e s) events st.

End Client.


(** * The single-phase handler *)

(** The first [POST] of [route.ts]: one inference call per image, no
    categorization phase; the category comes from the analysis itself. *)
Module Legacy.

(** What a call does: the promise rejects, with an [Error] that has a
    message or with some other value, or it resolves. *)
Inductive Outcome : Type :=
| Rejects (message : option string)
| Resolves (text : option string).

(** The [error] field of a result: a known text, or the message of a
    [TypeError] raised by the language, whose wording is the engine's. *)
Inductive ErrorMessage : Type :=
| Message (text : string)
| EngineMessage.

(** The argument of [generateContent], reduced to what varies: the user's
    instructions appended to [baseImagePrompt], and the inline data. *)
Record GenRequest : Type := {
  userInstructions : option string;
  inlineData : InlineData
}.

Record World : Type := {
  generateContent : nat -> GenRequest -> Outcome
}.

Record Analysis : Type := {
  app : string;
  content : string;
  category : string;
  extracted_text : string;
  confidence : jsnum
}.

Record Result : Type := {
  index : nat;
  analysis : Analysis;
  status : string;
  fileType : string;
  fileName : string;
  error : option ErrorMessage
}.

Inductive Response : Type :=
| Json200 (results : list Result) (userPrompt : option string)
| JsonError (code : nat) (error : string).

Definition allItems (files : list File) (imageDataUrls : list string) : list Item :=
  (map (fun file => {| data := "data:" ++ file_type file ++ ";base64," ++ file_base64 file;
                       name := Some (file_name file) |})
     (filter (fun file => Str.startsWith (file_type file) "image/") files)
   ++ map (fun imageData => {| data := imageData; name := None |}) imageDataUrls)%list.

Definition itemRequest (userPrompt : option string) (item : Item) : GenRequest :=
  {| userInstructions := Route.truthy userPrompt;
     inlineData := {| inline_data := Route.base64Data (data item);
                      mimeType := "image/png" |} |}.

Definition fallbackAnalysis (i : nat) : jsval :=
  JObj [("app", JStr "unknown");
        ("content", JStr ("image_document_" ++ Str.dec (i + 1)));
        ("category", JStr "misc");
        ("extracted_text", JStr "Could not extract text");
        ("confidence", JInt 20)].

Definition parseAnalysis (i : nat) (clean : string) : jsval :=
  match JSON.parse clean with
  | Some v => v
  | None =>
      let recovered :=
        match Str.match_braces clean with
        | Some jsonMatch =>
            match JSON.parse jsonMatch with
            | Some v => v
            | None => JNull
            end
        | None => JUndefined
        end in
      if Conv.ToBoolean recovered then recovered else fallbackAnalysis i
  end.

Definition cleanedAnalysis (i : nat) (parsed : jsval) : completion Analysis :=
  a <- Conv.Get parsed "app" ;;
  as' <- Conv.ToString (Conv.or_else a (JStr "unknown")) ;;
  c <- Conv.Get parsed "content" ;;
  cs <- Conv.ToString (Conv.or_else c (JStr ("image_document_" ++ Str.dec (i + 1)))) ;;
  g <- Conv.Get parsed "category" ;;
  gs <- Conv.ToString (Conv.or_else g (JStr "misc")) ;;
  t <- Conv.Get parsed "extracted_text" ;;
  ts <- Conv.ToString (Conv.or_else t (JStr "")) ;;
  k <- Conv.Get parsed "confidence" ;;
  conf <- Route.clampConfidence k ;;
  Normal {| app := Str.underscore_spaces false (Str.toLowerCase as');
            content := Str.underscore_spaces false cs;
            category := Str.toLowerCase gs;
            extracted_text := Str.substring0 150 ts;
            confidence := conf |}.

Definition errorResult (item : Item) (i : nat) (e : ErrorMessage) : Result :=
  {| index := i;
     analysis := {| app := "unknown";
                    content := "error_image_" ++ Str.dec (i + 1);
                    category := "misc";
                    extracted_text := "Processing failed";
                    confidence := Fin 0 |};
     status := "error";
     fileType := item_type;
     fileName := Route.itemFileName item i;
     error := Some e |}.

(** One callback of [allItems.map], given the outcome of its call *)
Definition analyzeOutcome (item : Item) (i : nat) (o : Outcome) : Result :=
  match o with
  | Rejects (Some m) => errorResult item i (Message m)
  | Rejects None => errorResult item i (Message "Unknown error")
  | Resolves t =>
      let parsed := parseAnalysis i (Route.cleanResponseText (Route.responseText t)) in
      match cleanedAnalysis i parsed with
      | Normal a =>
          {| index := i; analysis := a; status := "success";
             fileType := item_type; fileName := Route.itemFileName item i;
             error := None |}
      | Throw => errorResult item i EngineMessage
      end
  end.

Fixpoint mapi {A B} (f : nat -> A -> B) (start : nat) (l : list A) : list B :=
  match l with
  | [] => []
  | x :: r => f start x :: mapi f (S start) r
  end.

Definition POST (w : World) (request : Request) : Response :=
  let handle items userPrompt :=
    if (List.length items =? 0)%nat then JsonError 400 "No images provided"
    else if (10 <? List.length items)%nat then JsonError 400 "Maximum 10 images allowed"
    else
      Json200
        (mapi (fun i item =>
                 analyzeOutcome item i (generateContent w i (itemRequest userPrompt item)))
           0 items)
        (Route.truthy userPrompt) in
  match request with
  | FormData files images userPrompt =>
      handle (allItems files images) (Route.truthy userPrompt)
  | JsonBody images userPrompt => handle (allItems [] images) userPrompt
  | Unreadable => JsonError 500 "Internal server error"
  end.

End Legacy.

(** ** Vocabulary of the further properties *)

(** What the page keeps true of its files *)
Definition pageInvariant (st : Client.State) : Prop :=
  List.length (Client.files st) <= 10
  /\ forall f, In f (Client.files st) -> Client.allowed f = true.

Fixpoint allChars (p : ascii -> bool) (s : string) : bool :=
  match s with
  | EmptyString => true
  | String c s' => p c && allChars p s'
  end.

Definition isLowercaseLetter (c : ascii) : bool :=
  let n := nat_of_ascii c in ((97 <=? n)%nat && (n <=? 122)%nat).

Definition isUppercaseLetter (c : ascii) : bool :=
  let n := nat_of_ascii c in ((65 <=? n)%nat && (n <=? 90)%nat).

Definition notBacktick (c : ascii) : bool := negb (Ascii.eqb c "`").

Definition notDot (c : ascii) : bool := negb (Ascii.eqb c ".").

Definition notSpace (c : ascii) : bool := negb (Str.is_space c).

Definition notUppercase (c : ascii) : bool := negb (isUppercaseLetter c).

(** The name the route gives the [i]-th item *)
Definition itemNames (items : list Item) : list string :=
  map (fun p => itemFileName (snd p) (fst p)) (Obj.numbered 0 items).

(** A text between code fences, as the inference client tends to answer *)
Definition fenced (body : string) : string :=
  "```json" ++ String Str.newline body ++ String Str.newline "```".



(** * Properties *)

(** ** Running the phases *)

Lemma index_cleanedAnalysis item i parsed a :
  cleanedAnalysis item i parsed = Normal a -> index a = i.
Proof.
  unfold cleanedAnalysis, bind; intros H.
  repeat match type of H with
         | match ?c with Normal _ => _ | Throw => _ end = _ =>
             destruct c; [ | discriminate H ]
         end.
  injection H as <-; reflexivity.
Qed.

Lemma index_analyzeOutcome item i o : index (analyzeOutcome item i o) = i.
Proof.
  unfold analyzeOutcome; destruct o as [ | t]; [ reflexivity | ].
  destruct (cleanedAnalysis item i _) eqn:E; [ | reflexivity ].
  now apply index_cleanedAnalysis in E.
Qed.

Lemma mapiE_analyzeItem w up items : forall start log,
  mapiE (analyzeItem w up) start items log =
  (analysesFrom start items (outcomes w up (List.length log) items),
   (log ++ map (itemRequest up) items)%list).
Proof.
  induction items as [ | x r IH]; intros start log; simpl.
  - unfold ret; now rewrite app_nil_r.
  - unfold bindE at 1. unfold analyzeItem at 1, bindE at 1, call, ret at 1.
    unfold bindE at 1. rewrite IH. unfold ret.
    rewrite length_app, Nat.add_1_r, <- app_assoc. reflexivity.
Qed.

Lemma length_outcomes w up items : forall k, List.length (outcomes w up k items) = List.length items.
Proof. induction items; intros; simpl; auto. Qed.

Lemma length_analysesFrom items : forall start os,
  List.length os = List.length items ->
  List.length (analysesFrom start items os) = List.length items.
Proof.
  induction items as [ | x r IH]; intros start [ | o os] H; simpl in *; try discriminate; auto.
Qed.

Lemma index_analysesFrom items : forall start os,
  List.length os = List.length items ->
  map index (analysesFrom start items os) = seq start (List.length items).
Proof.
  induction items as [ | x r IH]; intros start [ | o os] H; simpl in *; try discriminate; auto.
  rewrite index_analyzeOutcome, IH; auto.
Qed.

Lemma length_analysesOf w items up : List.length (analysesOf w items up) = List.length items.
Proof. unfold analysesOf. apply length_analysesFrom, length_outcomes. Qed.

Lemma index_analysesOf w items up :
  map index (analysesOf w items up) = seq 0 (List.length items).
Proof. unfold analysesOf. apply index_analysesFrom, length_outcomes. Qed.

(** A batch of one to ten items goes through the three phases. *)
Lemma handle_valid w items up :
  1 <= List.length items <= 10 ->
  handle w items up [] =
  (respond (categorizationOf w items up) (analysesOf w items up) up,
   (map (itemRequest up) items
    ++ [categoryRequest up (analysesOf w items up)])%list).
Proof.
  intros [Hlo Hhi]. unfold handle.
  destruct (Nat.eqb_spec (List.length items) 0) as [E | _]; [ lia | ].
  destruct (Nat.ltb_spec 10 (List.length items)) as [E | _]; [ lia | ].
  unfold bindE at 1, initialAnalyses. rewrite mapiE_analyzeItem. simpl.
  unfold bindE, categorization, bindE, call, ret.
  rewrite length_map. reflexivity.
Qed.

Lemma handle_invalid w items up :
  handle w items up [] =
  if (List.length items =? 0)%nat then (JsonError 400 "No images provided", [])
  else if (10 <? List.length items)%nat then (JsonError 400 "Maximum 10 images allowed", [])
  else handle w items up [].
Proof.
  unfold handle.
  destruct (List.length items =? 0)%nat; [ reflexivity | ].
  destruct (10 <? List.length items)%nat; reflexivity.
Qed.

(** ** Ingestion and validation *)

(** C4. A request whose ingested item count is 0 or more than 10 gets the
    validation error response (status 400), and no call to the inference
    client is made while serving it. *)
Theorem C4_invalid_count_fails_fast w request items up :
  ingest w request = Some (items, up) ->
  List.length items = 0 \/ 10 < List.length items ->
  POST w request =
  (JsonError 400 (if (List.length items =? 0)%nat then "No images provided"
                  else "Maximum 10 images allowed"),
   []).
Proof.
  intros Hin Hcount. unfold POST. rewrite Hin, handle_invalid.
  destruct (Nat.eqb_spec (List.length items) 0) as [E | NE]; [ reflexivity | ].
  destruct (Nat.ltb_spec 10 (List.length items)); [ reflexivity | lia ].
Qed.

Lemma C4_witness_empty_and_eleven :
  (ingest offline (JsonBody [] None) = Some ([], None)
   /\ POST offline (JsonBody [] None) = (JsonError 400 "No images provided", []))
  /\ (10 < List.length (allItems offline tenImagesOnePdf ["data:image/png;base64,AAAA"])
      /\ POST offline (FormData tenImagesOnePdf ["data:image/png;base64,AAAA"] None)
         = (JsonError 400 "Maximum 10 images allowed", [])).
Proof.
  split; split.
  - reflexivity.
  - apply (C4_invalid_count_fails_fast offline (JsonBody [] None) [] None eq_refl).
    left; reflexivity.
  - simpl; lia.
  - apply (C4_invalid_count_fails_fast offline
             (FormData tenImagesOnePdf ["data:image/png;base64,AAAA"] None)
             _ None eq_refl).
    right; simpl; lia.
Defined.

Lemma allItems_drop w pre file post images :
  accepted file = false ->
  allItems w (pre ++ file :: post) images = allItems w (pre ++ post) images.
Proof.
  intros H. unfold allItems. rewrite !filter_app. simpl. now rewrite H.
Qed.

Lemma allItems_none w files :
  (forall f, In f files -> accepted f = false) -> allItems w files [] = [].
Proof.
  intros H. unfold allItems. simpl. rewrite app_nil_r.
  induction files as [ | f r IH]; simpl; [ reflexivity | ].
  rewrite (H f (or_introl eq_refl)). apply IH. intros g Hg. apply H. now right.
Qed.

Lemma length_allItems w files images :
  List.length (allItems w files images)
  = List.length (filter accepted files) + List.length images.
Proof. unfold allItems. now rewrite length_app, !length_map. Qed.

(** C10. In a multipart request a file part whose type does not start with
    [image/] and whose name does not end with [.heic] (in any letter case)
    is dropped before the count is validated: the response and the calls
    are those of the request without that part.  Hence a request made only
    of such parts gets "No images provided", a request passes validation
    whenever its image parts and image payloads number one to ten however
    many parts it has, and a request of eleven parts can succeed. *)
Theorem C10_non_image_parts_are_dropped :
  (forall w pre file post images up,
      Str.startsWith (file_type file) "image/" = false ->
      Str.endsWith (Str.toLowerCase (file_name file)) ".heic" = false ->
      POST w (FormData (pre ++ file :: post) images up)
      = POST w (FormData (pre ++ post) images up))
  /\ (forall w files up,
         (forall f, In f files ->
                    Str.startsWith (file_type f) "image/" = false
                    /\ Str.endsWith (Str.toLowerCase (file_name f)) ".heic" = false) ->
         POST w (FormData files [] up) = (JsonError 400 "No images provided", []))
  /\ (forall w files images up,
         1 <= List.length (filter accepted files) + List.length images <= 10 ->
         (forall msg, fst (POST w (FormData files images up)) <> JsonError 400 msg)
         /\ List.length (snd (POST w (FormData files images up)))
            = List.length (filter accepted files) + List.length images + 1)
  /\ (exists w files rs cats p,
         10 < List.length files
         /\ fst (POST w (FormData files [] None)) = Json200 rs cats p
         /\ List.length rs = 10).
Proof.
  split; [ | split; [ | split ] ].
  - intros w pre file post images up Ht Hn. unfold POST, ingest.
    rewrite allItems_drop; [ reflexivity | ].
    unfold accepted. now rewrite Ht, Hn.
  - intros w files up H. unfold POST, ingest.
    rewrite allItems_none; [ reflexivity | ].
    intros f Hf. destruct (H f Hf) as [Ht Hn]. unfold accepted. now rewrite Ht, Hn.
  - intros w files images up Hn. unfold POST, ingest.
    rewrite handle_valid by (now rewrite length_allItems).
    split.
    + intros msg. simpl. unfold respond.
      destruct (bind _ _) as [r | ] eqn:E; [ | discriminate ].
      unfold bind in E.
      destruct (results _ _); [ | discriminate ].
      destruct (Get _ _); [ | discriminate ].
      injection E as <-. discriminate.
    + simpl. rewrite length_app, length_map, length_allItems. reflexivity.
  - exists offline, tenImagesOnePdf. eexists _, _, _.
    split; [ simpl; lia | ]. split; [ vm_compute; reflexivity | reflexivity ].
Qed.

Lemma C10_witness_pdf_dropped :
  Str.startsWith (file_type (pdf "report.pdf")) "image/" = false
  /\ Str.endsWith (Str.toLowerCase (file_name (pdf "report.pdf"))) ".heic" = false
  /\ POST offline (FormData ([png "a.png"] ++ pdf "report.pdf" :: [png "b.png"]) [] None)
     = POST offline (FormData ([png "a.png"] ++ [png "b.png"]) [] None).
Proof.
  split; [ reflexivity | ]. split; [ reflexivity | ].
  apply (proj1 C10_non_image_parts_are_dropped); reflexivity.
Defined.

(** ** Assembly *)

Lemma mapiM_nth {A B} (f : nat -> A -> completion B) l : forall start ys,
  mapiM f start l = Normal ys ->
  List.length ys = List.length l
  /\ forall j x, nth_error l j = Some x ->
                 exists y, nth_error ys j = Some y /\ f (start + j) x = Normal y.
Proof.
  induction l as [ | a r IH]; intros start ys H; simpl in H.
  - injection H as <-. split; [ reflexivity | ]. intros [ | j] x; discriminate.
  - unfold bind in H. destruct (f start a) as [y | ] eqn:Ey; [ | discriminate ].
    destruct (mapiM f (S start) r) as [ys' | ] eqn:Er; [ | discriminate ].
    injection H as <-. destruct (IH _ _ Er) as [Hlen Hnth].
    split; [ simpl; now rewrite Hlen | ].
    intros [ | j] x Hx; simpl in *.
    + injection Hx as <-. exists y. now rewrite Nat.add_0_r.
    + destruct (Hnth j x Hx) as [y' [H1 H2]]. exists y'.
      replace (start + S j) with (S start + j) by lia. now split.
Qed.

Lemma mapiM_total {A B} (f : nat -> A -> completion B) l : forall start,
  (forall j x, nth_error l j = Some x -> f (start + j) x <> Throw) ->
  exists ys, mapiM f start l = Normal ys.
Proof.
  induction l as [ | a r IH]; intros start H; simpl.
  - now exists [].
  - unfold bind. destruct (f start a) as [y | ] eqn:Ey.
    + destruct (IH (S start)) as [ys Hys].
      * intros j x Hx. replace (S start + j) with (start + S j) by lia.
        now apply (H (S j)).
      * rewrite Hys. now eexists.
    + exfalso. apply (H 0 a eq_refl). now rewrite Nat.add_0_r.
Qed.

Lemma buildResult_inv cat i a r :
  buildResult cat i a = Normal r ->
  exists c, categoryName cat i = Normal c
            /\ res_index r = index a
            /\ category (analysis r) = c
            /\ an_confidence (analysis r) = confidence a
            /\ an_content (analysis r) = content a
            /\ status r = "success".
Proof.
  unfold buildResult, bind. destruct (categoryName cat i) as [c | ]; [ | discriminate ].
  intros H; injection H as <-. exists c; repeat split.
Qed.




Lemma find_pure {A} (p : A -> completion bool) (q : A -> bool) l :
  (forall x, In x l -> p x = Normal (q x)) ->
  Obj.find p l = Normal (List.find q l).
Proof.
  induction l as [ | a r IH]; simpl; intros H; [ reflexivity | ].
  rewrite (H a (or_introl eq_refl)). simpl.
  destruct (q a); [ reflexivity | ]. apply IH. intros x Hx. apply H. now right.
Qed.

Lemma listsIndex_contains i e :
  memberIndices (snd e) <> None -> listsIndex i e = Normal (contains i e).
Proof.
  unfold listsIndex, contains, memberIndices. destruct e as [k v]; simpl.
  destruct v as [ | | | | | | props]; try congruence. simpl.
  destruct (obj_lookup props "images") as [[ | | | | | l | ] | ]; try congruence;
    reflexivity.
Qed.

Lemma categoryName_wellFormed cat entries i :
  categoryEntries cat = Normal entries ->
  (forall e, In e entries -> memberIndices (snd e) <> None) ->
  categoryName cat i = Normal (nameOr (firstListing i entries)).
Proof.
  intros He Hwf. unfold categoryName. rewrite He. simpl.
  rewrite (find_pure (listsIndex i) (contains i)).
  - simpl. unfold firstListing. now destruct (List.find _ _).
  - intros x Hx. now apply listsIndex_contains, Hwf.
Qed.

Lemma categoryEntries_Get cat entries :
  categoryEntries cat = Normal entries ->
  exists cats, Get cat "categories" = Normal cats
               /\ Obj.Object_entries (or_else cats (JObj [])) = Normal entries.
Proof.
  unfold categoryEntries, bind. destruct (Get cat "categories") as [cats | ]; [ | discriminate ].
  intros H. now exists cats.
Qed.

Lemma respond_cases cat analyses up :
  (exists rs cats,
      results cat analyses = Normal rs
      /\ Get cat "categories" = Normal cats
      /\ respond cat analyses up = Json200 rs (or_else cats (JObj [])) (truthy up))
  \/ respond cat analyses up = internalError.
Proof.
  unfold respond, bind.
  destruct (results cat analyses) as [rs | ]; [ | now right ].
  destruct (Get cat "categories") as [cats | ]; [ | now right ].
  left. now exists rs, cats.
Qed.

Lemma respond_total cat analyses up entries :
  categoryEntries cat = Normal entries ->
  (forall i e, i < List.length analyses -> In e entries -> listsIndex i e <> Throw) ->
  exists rs cats,
    results cat analyses = Normal rs
    /\ Get cat "categories" = Normal cats
    /\ Obj.Object_entries (or_else cats (JObj [])) = Normal entries
    /\ respond cat analyses up = Json200 rs (or_else cats (JObj [])) (truthy up).
Proof.
  intros He Hok.
  destruct (categoryEntries_Get _ _ He) as [cats [Hg Ho]].
  destruct (mapiM_total (buildResult cat) analyses 0) as [rs Hrs].
  - intros j a Hj. simpl. unfold buildResult, categoryName. rewrite He. simpl.
    assert (Hlt : j < List.length analyses) by (apply nth_error_Some; congruence).
    destruct (Obj.find (listsIndex j) entries) as [oe | ] eqn:Ef; [ discriminate | ].
    exfalso. clear - Ef Hok Hlt.
    assert (Hall : forall e, In e entries -> listsIndex j e <> Throw) by eauto.
    clear Hok. induction entries as [ | e r IH]; simpl in Ef; [ discriminate | ].
    unfold bind in Ef. destruct (listsIndex j e) as [[ | ] | ] eqn:E.
    + discriminate.
    + apply IH; auto. intros x Hx. apply Hall. now right.
    + now apply (Hall e (or_introl eq_refl)).
  - exists rs, cats. repeat split; auto.
    unfold respond, bind. fold (results cat analyses). unfold results. now rewrite Hrs, Hg.
Qed.

(** ** The order of [Object.entries] *)

Lemma insert_index_perm e l : Permutation (Obj.insert_index e l) (e :: l).
Proof.
  induction l as [ | x r IH]; simpl; [ reflexivity | ].
  destruct (fst e <=? fst x)%Z; [ reflexivity | ].
  rewrite IH. apply perm_swap.
Qed.

Lemma sorted_perm l : Permutation (fold_right Obj.insert_index [] l) l.
Proof.
  induction l as [ | x r IH]; simpl; [ reflexivity | ].
  rewrite insert_index_perm. now constructor.
Qed.

Lemma own_entries_perm props : Permutation (Obj.own_entries props) props.
Proof.
  unfold Obj.own_entries. rewrite sorted_perm.
  induction props as [ | e r IH]; simpl; [ reflexivity | ].
  destruct (Obj.array_index (fst e)); simpl.
  - now constructor.
  - rewrite <- Permutation_middle. now constructor.
Qed.

Lemma In_own_entries e props : In e (Obj.own_entries props) <-> In e props.
Proof.
  split; apply Permutation_in; [ | symmetry ]; apply own_entries_perm.
Qed.

(** ** The theme categories *)

Section ThemeCategories.

Variable F : string -> jsval.

Lemma In_obj_define props k x :
  (forall k' v', In (k', v') props -> v' = F k') ->
  In x (obj_define props k (F k)) <-> In x props \/ x = (k, F k).
Proof.
  induction props as [ | [k' v'] r IH]; simpl; intros Hinv.
  - intuition.
  - destruct (String.eqb_spec k' k) as [-> | NE]; simpl.
    + rewrite (Hinv k v' (or_introl eq_refl)). intuition.
    + rewrite IH by eauto. intuition.
Qed.

Lemma keys_obj_define props k v :
  NoDup (map fst props) -> NoDup (map fst (obj_define props k v)).
Proof.
  induction props as [ | [k' v'] r IH]; simpl; intros Hnd.
  - constructor; [ intros [] | constructor ].
  - inversion_clear Hnd as [ | ? ? Hnotin Hr].
    destruct (String.eqb_spec k' k) as [-> | NE]; simpl.
    + now constructor.
    + constructor; [ | auto ].
      intros Hin. apply Hnotin. clear - Hin NE.
      induction r as [ | [k2 v2] r IH]; simpl in *.
      * destruct Hin as [E | []]. now elim NE.
      * destruct (String.eqb_spec k2 k) as [-> | NE2]; simpl in *; [ exact Hin | ].
        destruct Hin as [E | Hin]; auto.
Qed.

Lemma theme_fold ts : forall acc,
  (forall k v, In (k, v) acc -> v = F k) ->
  NoDup (map fst acc) ->
  let props := fold_left (fun acc t => Obj.assign acc t (F t)) ts acc in
  (forall k v, In (k, v) props <->
               In (k, v) acc \/ (In k ts /\ k <> "__proto__" /\ v = F k))
  /\ NoDup (map fst props).
Proof.
  induction ts as [ | t r IH]; simpl; intros acc Hinv Hnd.
  - split; [ | exact Hnd ]. intros k v. intuition.
  - unfold Obj.assign at 2 4.
    destruct (String.eqb_spec t "__proto__") as [-> | NE].
    + destruct (IH acc Hinv Hnd) as [H1 H2]. split; [ | exact H2 ].
      intros k v. rewrite H1. intuition. subst. congruence.
    + destruct (IH (obj_define acc t (F t))) as [H1 H2].
      * intros k v Hk. apply In_obj_define in Hk; [ | exact Hinv ].
        destruct Hk as [Hk | Hk]; [ eauto | now injection Hk as -> -> ].
      * now apply keys_obj_define.
      * split; [ | exact H2 ].
        intros k v. rewrite H1, In_obj_define by exact Hinv.
        split.
        -- intros [[H | H] | H]; [ now left | injection H as -> ->; right; auto | ].
           right. intuition.
        -- intros [H | [[<- | H] [H3 ->]]]; [ now left; left | now left; right | ].
           right. auto.
Qed.

End ThemeCategories.

Lemma In_numbered {A} (l : list A) : forall start i x,
  In (i, x) (Obj.numbered start l) <-> start <= i /\ nth_error l (i - start) = Some x.
Proof.
  induction l as [ | a r IH]; intros start i x; simpl.
  - split; [ intros [] | ]. intros [_ H]. destruct (i - start); discriminate.
  - rewrite IH. split.
    + intros [H | [H1 H2]].
      * injection H as <- <-. split; [ lia | ]. now rewrite Nat.sub_diag.
      * split; [ lia | ]. replace (i - start) with (S (i - S start)) by lia. exact H2.
    + intros [H1 H2]. destruct (Nat.eq_dec i start) as [-> | NE].
      * left. rewrite Nat.sub_diag in H2. simpl in H2. now injection H2 as <-.
      * right. split; [ lia | ].
        replace (i - start) with (S (i - S start)) in H2 by lia. exact H2.
Qed.

Lemma In_imageIndices analyses theme i :
  In i (imageIndices analyses theme) <->
  exists a, nth_error analyses i = Some a /\ main_theme a = theme.
Proof.
  unfold imageIndices. rewrite in_map_iff. split.
  - intros [[j a] [<- H]]. apply filter_In in H. destruct H as [H1 H2].
    apply In_numbered in H1. simpl in *. rewrite Nat.sub_0_r in H1.
    exists a. split; [ tauto | ]. now apply String.eqb_eq.
  - intros [a [H1 H2]]. exists (i, a). split; [ reflexivity | ].
    apply filter_In. split.
    + apply In_numbered. rewrite Nat.sub_0_r. split; [ lia | exact H1 ].
    + simpl. now apply String.eqb_eq.
Qed.

Lemma same_as_index_JInt i j : Obj.same_as_index i (JInt j) = (j =? i)%nat.
Proof.
  unfold Obj.same_as_index, JInt, num_of_nat, Qeq_bool, inject_Z. simpl.
  rewrite !Z.mul_1_r.
  destruct (Nat.eqb_spec j i) as [-> | NE].
  - apply Z.eqb_refl.
  - apply Z.eqb_neq. lia.
Qed.

Lemma existsb_JInt i l :
  existsb (Obj.same_as_index i) (map JInt l) = true <-> In i l.
Proof.
  rewrite existsb_exists. split.
  - intros [x [Hx Hs]]. apply in_map_iff in Hx. destruct Hx as [j [<- Hj]].
    rewrite same_as_index_JInt in Hs. apply Nat.eqb_eq in Hs. now subst.
  - intros H. exists (JInt i). split; [ now apply in_map | ].
    rewrite same_as_index_JInt. apply Nat.eqb_refl.
Qed.

Lemma memberIndices_themeCategory analyses theme :
  memberIndices (themeCategory analyses theme)
  = Some (map JInt (imageIndices analyses theme)).
Proof. reflexivity. Qed.

Lemma In_distinct x l : forall seen,
  In x (distinct l seen) <-> In x l /\ ~ In x seen.
Proof.
  induction l as [ | a r IH]; intros seen; simpl; [ tauto | ].
  destruct (existsb (String.eqb a) seen) eqn:E.
  - apply existsb_exists in E. destruct E as [y [Hy E]].
    apply String.eqb_eq in E. subst y. rewrite IH.
    split; [ tauto | ]. intros [[<- | H] Hn]; tauto.
  - assert (Hn : ~ In a seen).
    { intros H. apply Bool.not_true_iff_false in E. apply E.
      apply existsb_exists. exists a. split; [ exact H | apply String.eqb_refl ]. }
    simpl. rewrite IH. simpl. split.
    + intros [<- | [H1 H2]]; [ tauto | tauto ].
    + intros [[<- | H] Hs]; [ now left | ].
      destruct (string_dec a x) as [-> | NE]; [ now left | right; tauto ].
Qed.

Lemma NoDup_distinct l : forall seen, NoDup (distinct l seen).
Proof.
  induction l as [ | a r IH]; intros seen; simpl; [ constructor | ].
  destruct (existsb (String.eqb a) seen); [ apply IH | ].
  constructor; [ | apply IH ]. rewrite In_distinct. simpl. tauto.
Qed.

Lemma In_themes analyses k :
  In k (themes analyses) <-> exists a, In a analyses /\ main_theme a = k.
Proof.
  unfold themes. rewrite In_distinct, in_map_iff. simpl. split.
  - intros [[a [H1 H2]] _]. now exists a.
  - intros [a [H1 H2]]. split; [ now exists a | tauto ].
Qed.

Lemma themeProps_spec analyses :
  (forall k v, In (k, v) (themeProps analyses) <->
               In k (themes analyses) /\ k <> "__proto__"
               /\ v = themeCategory analyses k)
  /\ NoDup (map fst (themeProps analyses)).
Proof.
  destruct (theme_fold (themeCategory analyses) (themes analyses) [])
    as [H1 H2]; [ intros ? ? [] | constructor | ].
  split; [ | exact H2 ].
  intros k v. unfold themeProps. rewrite H1. simpl. tauto.
Qed.

Lemma fallback_entries analyses :
  categoryEntries (fallbackCategorization analyses)
  = Normal (Obj.own_entries (themeProps analyses)).
Proof. reflexivity. Qed.

Lemma fallback_entry analyses e :
  In e (Obj.own_entries (themeProps analyses)) ->
  snd e = themeCategory analyses (fst e).
Proof.
  rewrite In_own_entries. destruct e as [k v]. intros H.
  apply (proj1 (themeProps_spec analyses)) in H. simpl. tauto.
Qed.

(** With the theme categories the assembly never throws. *)
Lemma fallback_respond analyses up :
  exists rs,
    results (fallbackCategorization analyses) analyses = Normal rs
    /\ respond (fallbackCategorization analyses) analyses up
       = Json200 rs (JObj (themeProps analyses)) (truthy up).
Proof.
  destruct (respond_total (fallbackCategorization analyses) analyses up _
              (fallback_entries analyses)) as [rs [cats [H1 [H2 [H3 H4]]]]].
  - intros i e _ He. rewrite listsIndex_contains; [ discriminate | ].
    rewrite (fallback_entry _ _ He), memberIndices_themeCategory. discriminate.
  - exists rs. split; [ exact H1 | ].
    rewrite H4. simpl in H2. injection H2 as <-. reflexivity.
Qed.

Lemma categorizeOutcome_unusable analyses o :
  unusable o = true -> categorizeOutcome analyses o = fallbackCategorization analyses.
Proof.
  destruct o as [ | t]; simpl; [ reflexivity | ].
  destruct (JSON.parse _); [ discriminate | reflexivity ].
Qed.

Lemma POST_valid w request items up :
  ingest w request = Some (items, up) ->
  1 <= List.length items <= 10 ->
  POST w request =
  (respond (categorizationOf w items up) (analysesOf w items up) up,
   (map (itemRequest up) items ++ [categoryRequest up (analysesOf w items up)])%list).
Proof. intros Hin Hn. unfold POST. rewrite Hin. now apply handle_valid. Qed.

(** ** The result list *)




(** ** Category assignment *)

Lemma results_nth cat analyses rs i :
  results cat analyses = Normal rs ->
  i < List.length analyses ->
  exists r a c,
    nth_error rs i = Some r /\ nth_error analyses i = Some a
    /\ categoryName cat i = Normal c
    /\ res_index r = index a
    /\ category (analysis r) = c
    /\ an_confidence (analysis r) = confidence a
    /\ an_content (analysis r) = content a
    /\ status r = "success".
Proof.
  intros Hrs Hi. destruct (mapiM_nth _ _ _ _ Hrs) as [_ Hnth].
  destruct (nth_error analyses i) as [a | ] eqn:Ea;
    [ | apply nth_error_None in Ea; lia ].
  destruct (Hnth i a Ea) as [r [Hr Hb]]. simpl in Hb.
  destruct (buildResult_inv _ _ _ _ Hb) as [c H].
  exists r, a, c. tauto.
Qed.




(** In the example the index 0 is listed by "notes" and by "code", and the
    index 1 by "notes" and by "7"; the key "7" is an array index and comes
    first in the iteration order. *)
Example overlap_assignment :
  map (fun r => category (analysis r))
    (resultsOf (fst (POST overlapping (JsonBody threePngs None))))
  = ["notes"; "7"; "uncategorized"].
Proof. vm_compute. reflexivity. Qed.

(** ** Confidence *)






Lemma In_analysesFrom a items : forall start os,
  In a (analysesFrom start items os) -> exists item i o, a = analyzeOutcome item i o.
Proof.
  induction items as [ | x r IH]; intros start [ | o os] H; simpl in H; try contradiction.
  destruct H as [<- | H]; [ now exists x, start, o | eauto ].
Qed.

Lemma results_In cat analyses rs r :
  results cat analyses = Normal rs -> In r rs ->
  exists a, In a analyses
            /\ an_confidence (analysis r) = confidence a
            /\ status r = "success".
Proof.
  intros Hrs Hr. apply In_nth_error in Hr. destruct Hr as [i Hi].
  destruct (mapiM_nth _ _ _ _ Hrs) as [Hlen _].
  assert (Hlt : i < List.length analyses).
  { rewrite <- Hlen. apply nth_error_Some. congruence. }
  destruct (results_nth _ _ _ _ Hrs Hlt) as [r' [a [c [Hr' [Ha [_ [_ [_ [Hc [_ Hs]]]]]]]]]].
  rewrite Hi in Hr'. injection Hr' as <-.
  exists a. split; [ now apply nth_error_In in Ha | auto ].
Qed.

Lemma Json200_results w request items up rs cats p :
  ingest w request = Some (items, up) ->
  1 <= List.length items <= 10 ->
  fst (POST w request) = Json200 rs cats p ->
  results (categorizationOf w items up) (analysesOf w items up) = Normal rs
  /\ exists c0, Get (categorizationOf w items up) "categories" = Normal c0
                /\ cats = or_else c0 (JObj []).
Proof.
  intros Hin Hn H. rewrite (POST_valid _ _ _ _ Hin Hn) in H. cbn [fst] in H.
  destruct (respond_cases (categorizationOf w items up) (analysesOf w items up) up)
    as [[rs' [cats' [H1 [H2 H3]]]] | E]; rewrite H in *.
  - injection H3 as -> -> _. split; [ exact H1 | ]. now exists cats'.
  - discriminate E.
Qed.










(** ** Failed items *)

(** X12. Phase 3 writes the same status into every result. *)
Lemma every_status_is_success w request items up rs cats p r :
  ingest w request = Some (items, up) ->
  1 <= List.length items <= 10 ->
  fst (POST w request) = Json200 rs cats p ->
  In r rs -> status r = "success".
Proof.
  intros Hin Hn H Hr.
  destruct (Json200_results _ _ _ _ _ _ _ Hin Hn H) as [Hrs _].
  destruct (results_In _ _ _ _ Hrs Hr) as [a [_ [_ Hs]]]. exact Hs.
Qed.

(** C2 (the code at the failing input). In a batch of two whose first
    inference call rejects, the first result carries the fallback analysis
    with confidence 0, and its status is "success", not "error"; the second
    result is that of its own call. *)
Theorem C2_rejected_item_is_reported_as_success :
  generateContent firstCallFails 0 (itemRequest None anItem) = Rejects
  /\ fst (POST firstCallFails (JsonBody twoPngs None))
     = Json200
         [{| res_index := 0;
             analysis := {| an_content := "error_image_1"; category := "misc";
                            an_extracted_text := "Processing failed";
                            an_confidence := Fin 0 |};
             status := "success"; fileType := "image"; res_fileName := "image_1" |};
          {| res_index := 1;
             analysis := {| an_content := "receipt"; category := "finance";
                            an_extracted_text := "";
                            an_confidence := Fin 80 |};
             status := "success"; fileType := "image"; res_fileName := "image_2" |}]
         (JObj [("misc", JObj [("description", JStr "Images related to misc");
                               ("images", JArr [JInt 0])]);
                ("finance", JObj [("description", JStr "Images related to finance");
                                  ("images", JArr [JInt 1])])])
         None.
Proof. split; vm_compute; reflexivity. Qed.

(** ** Parsing the aggregate response *)

(** C5 (as amended). The synthesizer has two steps where the analyzer has
    three.  Text that parses as a whole is taken by both.  Text that does
    not parse as a whole but holds a parseable brace-delimited object is
    recovered by the analyzer, while the synthesizer falls back to the
    theme categories, as it does when its call rejects. *)
Theorem C5_synthesizer_has_no_brace_recovery analyses i t :
  (forall v, JSON.parse (cleaned t) = Some v ->
             categorizeOutcome analyses (Resolves t) = v
             /\ parseAnalysis i (cleaned t) = v)
  /\ (JSON.parse (cleaned t) = None ->
      categorizeOutcome analyses (Resolves t) = fallbackCategorization analyses
      /\ forall jsonMatch v,
           Str.match_braces (cleaned t) = Some jsonMatch ->
           JSON.parse jsonMatch = Some v ->
           ToBoolean v = true ->
           parseAnalysis i (cleaned t) = v)
  /\ categorizeOutcome analyses Rejects = fallbackCategorization analyses.
Proof.
  unfold categorizeOutcome, parseAnalysis. fold (cleaned t).
  split; [ | split ].
  - intros v H. rewrite H. now split.
  - intros H. rewrite H. split; [ reflexivity | ].
    intros jsonMatch v Hm Hv Hb. now rewrite Hm, Hv, Hb.
  - reflexivity.
Qed.

Lemma C5_witness_wrapped_object :
  JSON.parse (cleaned chattyText) = None
  /\ Str.match_braces (cleaned chattyText)
     = Some (Str.quoted "{'categories': {'docs': {'description':'d','images':[0]}}}")
  /\ JSON.parse (Str.quoted "{'categories': {'docs': {'description':'d','images':[0]}}}")
     = Some docsCategorization
  /\ categorizeOutcome (analysesOf chatty [anItem] None) (Resolves chattyText)
     = fallbackCategorization (analysesOf chatty [anItem] None)
  /\ parseAnalysis 0 (cleaned chattyText) = docsCategorization.
Proof.
  assert (H1 : JSON.parse (cleaned chattyText) = None) by (vm_compute; reflexivity).
  assert (H2 : Str.match_braces (cleaned chattyText)
               = Some (Str.quoted "{'categories': {'docs': {'description':'d','images':[0]}}}"))
    by (vm_compute; reflexivity).
  assert (H3 : JSON.parse (Str.quoted "{'categories': {'docs': {'description':'d','images':[0]}}}")
               = Some docsCategorization) by (vm_compute; reflexivity).
  repeat (split; [ assumption | ]).
  destruct (proj1 (proj2 (C5_synthesizer_has_no_brace_recovery
                            (analysesOf chatty [anItem] None) 0 chattyText)) H1)
    as [Hs Ha].
  split; [ exact Hs | ].
  exact (Ha _ _ H2 H3 eq_refl).
Defined.

(** The aggregate response is a sentence followed by a well-formed
    categorization that puts image 0 under "docs": the synthesizer does not
    recover it, and the image is categorized by its theme. *)
Lemma C5_counterexample_wrapped_object_is_dropped :
  JSON.parse (cleaned chattyText) = None
  /\ (exists jsonMatch,
         Str.match_braces (cleaned chattyText) = Some jsonMatch
         /\ JSON.parse jsonMatch = Some docsCategorization)
  /\ aggregateOutcome chatty [anItem] None = Resolves chattyText
  /\ categorizationOf chatty [anItem] None <> docsCategorization
  /\ categorizationOf chatty [anItem] None
     = fallbackCategorization (analysesOf chatty [anItem] None)
  /\ map (fun r => category (analysis r))
       (resultsOf (fst (POST chatty (JsonBody onePng None))))
     = ["finance"]
  /\ categoriesOf (fst (POST chatty (JsonBody onePng None)))
     = JObj [("finance", JObj [("description", JStr "Images related to finance");
                               ("images", JArr [JInt 0])])].
Proof.
  split; [ vm_compute; reflexivity | ].
  split; [ eexists; split; vm_compute; reflexivity | ].
  split; [ vm_compute; reflexivity | ].
  split; [ vm_compute; discriminate | ].
  repeat split; vm_compute; reflexivity.
Qed.

(** ** The categories map of the response *)




(** ** The theme fallback *)

(** X11. When the aggregate call gives nothing usable and no theme is the
    name [__proto__], the response holds one category per distinct theme, each
    with the description and the indices of its theme, and every result is
    in the category of its theme. *)
Lemma theme_fallback_partitions w request items up :
  ingest w request = Some (items, up) ->
  1 <= List.length items <= 10 ->
  unusable (aggregateOutcome w items up) = true ->
  (forall a, In a (analysesOf w items up) -> main_theme a <> "__proto__") ->
  exists rs entries,
    fst (POST w request)
    = Json200 rs (JObj (themeProps (analysesOf w items up))) (truthy up)
    /\ Obj.Object_entries (JObj (themeProps (analysesOf w items up))) = Normal entries
    /\ entries <> []
    /\ NoDup (map fst entries)
    /\ (forall k, In k (map fst entries) <-> In k (themes (analysesOf w items up)))
    /\ (forall k v, In (k, v) entries ->
          v = JObj [("description", JStr ("Images related to " ++ k));
                    ("images", JArr (map JInt (imageIndices (analysesOf w items up) k)))])
    /\ (forall i, i < List.length items ->
          exists r a, nth_error rs i = Some r
                      /\ nth_error (analysesOf w items up) i = Some a
                      /\ category (analysis r) = main_theme a
                      /\ forall k, In i (imageIndices (analysesOf w items up) k)
                                   <-> k = main_theme a).
Proof.
  intros Hin Hn Hu Hproto.
  set (analyses := analysesOf w items up) in *.
  destruct (themeProps_spec analyses) as [Hspec Hnd].
  assert (Hkeys : forall k, In k (map fst (Obj.own_entries (themeProps analyses)))
                            <-> In k (themes analyses)).
  { intros k. rewrite in_map_iff. split.
    - intros [[k' v] [<- He]]. apply In_own_entries, Hspec in He. simpl. tauto.
    - intros Hk. exists (k, themeCategory analyses k). split; [ reflexivity | ].
      apply In_own_entries, Hspec. repeat split; auto.
      apply In_themes in Hk. destruct Hk as [a [Ha <-]]. now apply Hproto. }
  destruct (fallback_respond analyses up) as [rs [Hrs Hresp]].
  exists rs, (Obj.own_entries (themeProps analyses)).
  split.
  { rewrite (POST_valid _ _ _ _ Hin Hn). cbn [fst]. unfold categorizationOf.
    fold analyses. now rewrite (categorizeOutcome_unusable _ _ Hu). }
  split; [ reflexivity | ].
  assert (Hnth : forall i, i < List.length items -> exists a, nth_error analyses i = Some a).
  { intros i Hi. destruct (nth_error analyses i) as [a | ] eqn:E; [ now exists a | ].
    apply nth_error_None in E. unfold analyses in E. rewrite length_analysesOf in E. lia. }
  split.
  { destruct (Hnth 0) as [a Ha]; [ lia | ].
    assert (Hk : In (main_theme a) (map fst (Obj.own_entries (themeProps analyses)))).
    { apply Hkeys, In_themes. exists a. split; [ now apply nth_error_In in Ha | reflexivity ]. }
    intros E. rewrite E in Hk. exact Hk. }
  split.
  { apply (Permutation_NoDup (l := map fst (themeProps analyses))); [ | exact Hnd ].
    apply Permutation_map. symmetry. apply own_entries_perm. }
  split; [ exact Hkeys | ].
  split.
  { intros k v He. apply In_own_entries, Hspec in He. now destruct He as [_ [_ ->]]. }
  intros i Hi. destruct (Hnth i Hi) as [a Ha].
  assert (Hi' : i < List.length analyses)
    by (unfold analyses; now rewrite length_analysesOf).
  destruct (results_nth _ _ _ _ Hrs Hi') as [r [a' [c [Hr [Ha' [Hc [_ [Hcat _]]]]]]]].
  rewrite Ha in Ha'. injection Ha' as <-.
  assert (Hidx : forall k, In i (imageIndices analyses k) <-> k = main_theme a).
  { intros k. rewrite In_imageIndices. split.
    - intros [b [Hb <-]]. congruence.
    - intros ->. now exists a. }
  exists r, a. split; [ exact Hr | split; [ exact Ha | split; [ | exact Hidx ] ] ].
  rewrite (categoryName_wellFormed _ _ i (fallback_entries analyses)) in Hc.
  2:{ intros e He. rewrite (fallback_entry _ _ He), memberIndices_themeCategory. discriminate. }
  injection Hc as <-. rewrite Hcat. unfold firstListing.
  assert (Hcont : forall e, In e (Obj.own_entries (themeProps analyses)) ->
                            (contains i e = true <-> fst e = main_theme a)).
  { intros e He. unfold contains.
    rewrite (fallback_entry _ _ He), memberIndices_themeCategory, existsb_JInt.
    apply Hidx. }
  destruct (List.find (contains i) (Obj.own_entries (themeProps analyses))) as [e | ] eqn:Ef.
  - apply find_some in Ef. destruct Ef as [He Ht]. simpl. now apply Hcont.
  - exfalso.
    assert (He : In (main_theme a, themeCategory analyses (main_theme a))
                   (Obj.own_entries (themeProps analyses))).
    { apply In_own_entries, Hspec. repeat split.
      - apply In_themes. exists a. split; [ now apply nth_error_In in Ha | reflexivity ].
      - apply Hproto. now apply nth_error_In in Ha. }
    pose proof (find_none _ _ Ef _ He) as Hf.
    assert (Ht : contains i (main_theme a, themeCategory analyses (main_theme a)) = true)
      by now apply Hcont.
    congruence.
Qed.

(** C6 (the code at the failing input). A batch of one item whose theme is
    [__proto__] and whose aggregate call rejects: the categories map of
    the response is empty and the item is "uncategorized". *)
Theorem C6_proto_theme_leaves_no_category :
  map main_theme (analysesOf protoTheme [anItem] None) = ["__proto__"]
  /\ aggregateOutcome protoTheme [anItem] None = Rejects
  /\ fst (POST protoTheme (JsonBody onePng None))
     = Json200
         [{| res_index := 0;
             analysis := {| an_content := "readme"; category := "uncategorized";
                            an_extracted_text := ""; an_confidence := Fin 90 |};
             status := "success"; fileType := "image"; res_fileName := "image_1" |}]
         (JObj [])
         None.
Proof. repeat split; vm_compute; reflexivity. Qed.

(** * Further properties of the route and of the page *)

(** ** Strings *)

Lemma allChars_app p s t : allChars p (s ++ t) = allChars p s && allChars p t.
Proof.
  induction s as [ | c s IH]; simpl; [ reflexivity | ].
  now rewrite IH, andb_assoc.
Qed.

Lemma allChars_weaken (p q : ascii -> bool) s :
  (forall c, p c = true -> q c = true) -> allChars p s = true -> allChars q s = true.
Proof.
  intros Hpq. induction s as [ | c s IH]; simpl; [ reflexivity | ].
  intros H. apply andb_prop in H. destruct H as [H1 H2].
  now rewrite (Hpq c H1), IH.
Qed.

Lemma digits_string_of_uint d :
  allChars (fun c => match JSON.digit_val c with Some _ => true | None => false end)
    (NilEmpty.string_of_uint d) = true.
Proof. induction d; simpl; auto. Qed.

Lemma dec_notSpace n : allChars notSpace (Str.dec n) = true.
Proof.
  unfold Str.dec. refine (allChars_weaken _ _ _ _ (digits_string_of_uint _)).
  intros c. unfold notSpace, Str.is_space, JSON.digit_val. cbv zeta.
  generalize (nat_of_ascii c) as m. intros m.
  destruct (Nat.leb_spec 48 m) as [H1 | H1]; [ | discriminate ].
  destruct (Nat.leb_spec m 57) as [H2 | H2]; [ | discriminate ].
  intros _.
  assert (E1 : (m <=? 13)%nat = false) by (apply Nat.leb_gt; lia).
  assert (E2 : (m =? 32)%nat = false) by (apply Nat.eqb_neq; lia).
  now rewrite E1, E2, andb_false_r.
Qed.

Lemma length_substring0 n : forall s, String.length (Str.substring0 n s) <= n.
Proof.
  induction n as [ | n IH]; intros [ | c s]; simpl; try lia.
  specialize (IH s). lia.
Qed.

Lemma substring0_short n : forall s, String.length s <= n -> Str.substring0 n s = s.
Proof.
  induction n as [ | n IH]; intros [ | c s]; simpl; intros H; try reflexivity; try lia.
  rewrite IH; [ reflexivity | lia ].
Qed.

Lemma underscore_spaces_notSpace s : forall b,
  allChars notSpace (Str.underscore_spaces b s) = true.
Proof.
  induction s as [ | c s IH]; intros b; simpl; [ reflexivity | ].
  destruct (Str.is_space c) eqn:E.
  - destruct b; simpl; auto.
  - simpl. unfold notSpace at 1. rewrite E. simpl. auto.
Qed.

Lemma underscore_spaces_id s :
  allChars notSpace s = true -> Str.underscore_spaces false s = s.
Proof.
  induction s as [ | c s IH]; simpl; [ reflexivity | ].
  unfold notSpace at 1. intros H. apply andb_prop in H. destruct H as [H1 H2].
  destruct (Str.is_space c); [ discriminate | ]. now rewrite IH.
Qed.

Lemma lower_notUppercase c : notUppercase (Str.lower c) = true.
Proof.
  unfold notUppercase, isUppercaseLetter, Str.lower. cbv zeta.
  destruct ((65 <=? nat_of_ascii c)%nat && (nat_of_ascii c <=? 90)%nat) eqn:E.
  - apply andb_prop in E. destruct E as [H1 H2].
    apply Nat.leb_le in H1. apply Nat.leb_le in H2.
    rewrite nat_ascii_embedding by lia.
    assert (E2 : (nat_of_ascii c + 32 <=? 90)%nat = false) by (apply Nat.leb_gt; lia).
    now rewrite E2, andb_false_r.
  - now rewrite E.
Qed.

Lemma toLowerCase_notUppercase s : allChars notUppercase (Str.toLowerCase s) = true.
Proof.
  induction s as [ | c s IH]; simpl; [ reflexivity | ].
  now rewrite lower_notUppercase, IH.
Qed.

(** ** The fields of an analysis *)

Lemma cleanedAnalysis_fields item i parsed a :
  cleanedAnalysis item i parsed = Normal a ->
  exists cs ts ms,
    content a = Str.underscore_spaces false cs
    /\ extracted_text a = Str.substring0 150 ts
    /\ main_theme a = Str.toLowerCase ms
    /\ fileName a = itemFileName item i.
Proof.
  unfold cleanedAnalysis, bind; intros H.
  repeat match type of H with
         | match ?c with Normal _ => _ | Throw => _ end = _ =>
             destruct c; [ | discriminate H ]
         end.
  injection H as <-. simpl. do 3 eexists. repeat split; reflexivity.
Qed.

Lemma analyzeOutcome_fields item i o :
  analyzeOutcome item i o = errorAnalysis item i
  \/ exists cs ts ms,
       content (analyzeOutcome item i o) = Str.underscore_spaces false cs
       /\ extracted_text (analyzeOutcome item i o) = Str.substring0 150 ts
       /\ main_theme (analyzeOutcome item i o) = Str.toLowerCase ms
       /\ fileName (analyzeOutcome item i o) = itemFileName item i.
Proof.
  unfold analyzeOutcome. destruct o as [ | t]; [ now left | ].
  destruct (cleanedAnalysis item i _) as [a | ] eqn:E; [ | now left ].
  right. now apply cleanedAnalysis_fields in E.
Qed.

Lemma results_In_fields cat analyses rs r :
  results cat analyses = Normal rs -> In r rs ->
  exists a, In a analyses
            /\ an_content (analysis r) = content a
            /\ an_extracted_text (analysis r) = extracted_text a
            /\ res_fileName r = fileName a
            /\ fileType r = "image".
Proof.
  intros Hrs Hr. apply In_nth_error in Hr. destruct Hr as [i Hi].
  destruct (mapiM_nth _ _ _ _ Hrs) as [Hlen Hnth].
  destruct (nth_error analyses i) as [a | ] eqn:Ea.
  - destruct (Hnth i a Ea) as [r' [Hr' Hb]]. rewrite Hi in Hr'. injection Hr' as <-.
    simpl in Hb. unfold buildResult, bind in Hb.
    destruct (categoryName cat i); [ | discriminate ]. injection Hb as <-.
    exists a. split; [ now apply nth_error_In in Ea | simpl; auto ].
  - apply nth_error_None in Ea. rewrite <- Hlen in Ea.
    assert (i < List.length rs) by (apply nth_error_Some; congruence). lia.
Qed.

(** X1. The extracted text of an analysis never has more than 150
    characters, whatever the inference client returned; the same holds for
    every result of a response. *)
Theorem extracted_text_at_most_150 :
  (forall item i o, String.length (extracted_text (analyzeOutcome item i o)) <= 150)
  /\ (forall w request items up rs cats p r,
         ingest w request = Some (items, up) ->
         1 <= List.length items <= 10 ->
         fst (POST w request) = Json200 rs cats p ->
         In r rs ->
         String.length (an_extracted_text (analysis r)) <= 150).
Proof.
  assert (H1 : forall item i o,
             String.length (extracted_text (analyzeOutcome item i o)) <= 150).
  { intros item i o.
    destruct (analyzeOutcome_fields item i o) as [E | [cs [ts [ms [_ [E _]]]]]]; rewrite E.
    - simpl. lia.
    - apply length_substring0. }
  split; [ exact H1 | ].
  intros w request items up rs cats p r Hin Hn H Hr.
  destruct (Json200_results _ _ _ _ _ _ _ Hin Hn H) as [Hrs _].
  destruct (results_In_fields _ _ _ _ Hrs Hr) as [a [Ha [_ [Ht _]]]].
  apply In_analysesFrom in Ha. destruct Ha as [item [i [o ->]]].
  rewrite Ht. apply H1.
Qed.

Lemma extracted_text_witness :
  ingest overlapping (JsonBody threePngs None) = Some (threeItems, None)
  /\ 1 <= List.length threeItems <= 10
  /\ forall r, In r (resultsOf (fst (POST overlapping (JsonBody threePngs None)))) ->
               String.length (an_extracted_text (analysis r)) <= 150.
Proof.
  split; [ reflexivity | ]. split; [ simpl; lia | ].
  intros r Hr.
  refine (proj2 extracted_text_at_most_150 overlapping (JsonBody threePngs None)
            threeItems None
            (resultsOf (fst (POST overlapping (JsonBody threePngs None))))
            (categoriesOf (fst (POST overlapping (JsonBody threePngs None))))
            None r eq_refl _ _ Hr).
  - simpl; lia.
  - vm_compute. reflexivity.
Defined.

(** X2. The content slug of an analysis holds no white space (every run of
    white space in the returned description has become one underscore), in
    the record and in every result of a response. *)
Theorem content_has_no_white_space :
  (forall item i o, allChars notSpace (content (analyzeOutcome item i o)) = true)
  /\ (forall w request items up rs cats p r,
         ingest w request = Some (items, up) ->
         1 <= List.length items <= 10 ->
         fst (POST w request) = Json200 rs cats p ->
         In r rs ->
         allChars notSpace (an_content (analysis r)) = true).
Proof.
  assert (H1 : forall item i o,
             allChars notSpace (content (analyzeOutcome item i o)) = true).
  { intros item i o.
    destruct (analyzeOutcome_fields item i o) as [E | [cs [ts [ms [E _]]]]]; rewrite E.
    - simpl. apply dec_notSpace.
    - apply underscore_spaces_notSpace. }
  split; [ exact H1 | ].
  intros w request items up rs cats p r Hin Hn H Hr.
  destruct (Json200_results _ _ _ _ _ _ _ Hin Hn H) as [Hrs _].
  destruct (results_In_fields _ _ _ _ Hrs Hr) as [a [Ha [Hc _]]].
  apply In_analysesFrom in Ha. destruct Ha as [item [i [o ->]]].
  rewrite Hc. apply H1.
Qed.

Lemma content_witness :
  ingest overlapping (JsonBody threePngs None) = Some (threeItems, None)
  /\ 1 <= List.length threeItems <= 10
  /\ forall r, In r (resultsOf (fst (POST overlapping (JsonBody threePngs None)))) ->
               allChars notSpace (an_content (analysis r)) = true.
Proof.
  split; [ reflexivity | ]. split; [ simpl; lia | ].
  intros r Hr.
  refine (proj2 content_has_no_white_space overlapping (JsonBody threePngs None)
            threeItems None
            (resultsOf (fst (POST overlapping (JsonBody threePngs None))))
            (categoriesOf (fst (POST overlapping (JsonBody threePngs None))))
            None r eq_refl _ _ Hr).
  - simpl; lia.
  - vm_compute. reflexivity.
Defined.

(** X3. The theme of an analysis holds no upper-case letter. *)
Theorem theme_is_lower_case item i o :
  allChars notUppercase (main_theme (analyzeOutcome item i o)) = true.
Proof.
  destruct (analyzeOutcome_fields item i o) as [E | [cs [ts [ms [_ [_ [E _]]]]]]]; rewrite E.
  - reflexivity.
  - apply toLowerCase_notUppercase.
Qed.

(** ** The calls to the inference client *)

(** X4. Serving a batch of [n] items, [n] from 1 to 10, makes exactly
    [n + 1] calls to the inference client, also when the request ends in
    the internal-error response: the [k]-th call carries the payload of the
    [k]-th item, and the last call is the aggregate call, the only one
    without inline data, made with one analysis per item. *)
Theorem inference_calls_of_a_valid_batch w request items up :
  ingest w request = Some (items, up) ->
  1 <= List.length items <= 10 ->
  List.length (snd (POST w request)) = List.length items + 1
  /\ (forall k item, nth_error items k = Some item ->
        nth_error (snd (POST w request)) k = Some (itemRequest up item))
  /\ (exists analyses,
        nth_error (snd (POST w request)) (List.length items)
        = Some (categoryRequest up analyses)
        /\ map index analyses = seq 0 (List.length items))
  /\ (forall k r, nth_error (snd (POST w request)) k = Some r ->
        (inlineData r = None <-> k = List.length items)).
Proof.
  intros Hin Hn. rewrite (POST_valid _ _ _ _ Hin Hn). cbn [snd].
  set (last := categoryRequest up (analysesOf w items up)).
  assert (Hk : forall k item, nth_error items k = Some item ->
                 nth_error (map (itemRequest up) items ++ [last]) k
                 = Some (itemRequest up item)).
  { intros k item Hk. rewrite nth_error_app1.
    - now apply map_nth_error.
    - rewrite length_map. apply nth_error_Some. congruence. }
  assert (Hlast : nth_error (map (itemRequest up) items ++ [last]) (List.length items)
                  = Some last).
  { rewrite nth_error_app2; rewrite length_map; [ | lia ].
    now rewrite Nat.sub_diag. }
  split; [ now rewrite length_app, length_map | ].
  split; [ exact Hk | ].
  split; [ exists (analysesOf w items up); split;
           [ exact Hlast | apply index_analysesOf ] | ].
  intros k r Hr.
  destruct (Nat.lt_trichotomy k (List.length items)) as [Hlt | [-> | Hgt]].
  - destruct (nth_error items k) as [item | ] eqn:Ei;
      [ | apply nth_error_None in Ei; lia ].
    rewrite (Hk k item Ei) in Hr. injection Hr as <-. simpl.
    split; [ discriminate | lia ].
  - rewrite Hlast in Hr. injection Hr as <-. simpl. tauto.
  - exfalso. assert (Hnone : nth_error (map (itemRequest up) items ++ [last]) k = None).
    { apply nth_error_None. rewrite length_app, length_map. simpl. lia. }
    congruence.
Qed.

Lemma inference_calls_witness :
  ingest firstCallFails (JsonBody twoPngs None)
  = Some (map (fun d => {| data := d; name := None |}) twoPngs, None)
  /\ List.length (snd (POST firstCallFails (JsonBody twoPngs None))) = 3.
Proof.
  split; [ reflexivity | ].
  refine (proj1 (inference_calls_of_a_valid_batch firstCallFails (JsonBody twoPngs None)
                   _ None eq_refl _)).
  simpl; lia.
Defined.

(** ** The payload sent for an item *)

Lemma prefix_append p s : String.prefix p (p ++ s) = true.
Proof.
  induction p as [ | c p IH]; simpl; [ now destruct s | ].
  destruct (ascii_dec c c) as [_ | NE]; [ exact IH | now elim NE ].
Qed.

Lemma skip_lowercase_cons c s count :
  skip_lowercase (String c s) count
  = if isLowercaseLetter c then skip_lowercase s (S count) else (count, String c s).
Proof. reflexivity. Qed.

Lemma skip_lowercase_run sub rest : forall count,
  allChars isLowercaseLetter sub = true ->
  skip_lowercase (sub ++ String ";" rest) count
  = (count + String.length sub, String ";" rest).
Proof.
  induction sub as [ | c sub IH]; intros count H.
  - change ("" ++ String ";" rest) with (String ";" rest).
    rewrite skip_lowercase_cons. simpl. now rewrite Nat.add_0_r.
  - change (String c sub ++ String ";" rest) with (String c (sub ++ String ";" rest)).
    simpl in H. apply andb_prop in H. destruct H as [H1 H2].
    rewrite skip_lowercase_cons, H1, IH by exact H2.
    f_equal. simpl. lia.
Qed.

Lemma base64Data_of_data_url sub payload :
  sub <> "" ->
  allChars isLowercaseLetter sub = true ->
  base64Data ("data:" ++ ("image/" ++ sub) ++ ";base64," ++ payload) = payload.
Proof.
  intros Hne Hsub. unfold base64Data.
  change ("data:" ++ ("image/" ++ sub) ++ ";base64," ++ payload)
    with ("data:image/" ++ (sub ++ String ";" ("base64," ++ payload))).
  rewrite prefix_append.
  change (Str.drop 11 ("data:image/" ++ (sub ++ String ";" ("base64," ++ payload))))
    with (sub ++ String ";" ("base64," ++ payload)).
  rewrite skip_lowercase_run by exact Hsub.
  destruct sub as [ | c sub]; [ congruence | ].
  cbn [Nat.add String.length].
  change (String ";" ("base64," ++ payload)) with (";base64," ++ payload).
  now rewrite prefix_append.
Qed.

(** X5. Building a data URL and stripping its prefix are inverse of each
    other for the media types [image/] followed by lower-case letters: the
    payload sent to the inference client is the base64 text itself,
    whatever the instructions of the user. *)
Theorem data_url_round_trip up sub payload n :
  sub <> "" ->
  allChars isLowercaseLetter sub = true ->
  option_map inline_data
    (inlineData (itemRequest up
                   {| data := "data:" ++ ("image/" ++ sub) ++ ";base64," ++ payload;
                      name := n |}))
  = Some payload.
Proof.
  intros Hne Hsub. unfold itemRequest. cbn [inlineData data option_map inline_data].
  now rewrite base64Data_of_data_url.
Qed.

Lemma data_url_round_trip_witness :
  "png" <> "" /\ allChars isLowercaseLetter "png" = true
  /\ option_map inline_data
       (inlineData (itemRequest None
                      {| data := "data:" ++ ("image/" ++ "png") ++ ";base64,"
                                 ++ "iVBORw0KGgo=";
                         name := None |}))
     = Some "iVBORw0KGgo=".
Proof.
  split; [ discriminate | ]. split; [ reflexivity | ].
  apply data_url_round_trip; [ discriminate | reflexivity ].
Defined.

(** X6. What the route sends for an uploaded file whose type is [image/]
    followed by lower-case letters.  A HEIC file that the codec converts is
    sent as JPEG, the converted bytes labelled [image/jpeg]; a HEIC file
    the codec fails on, and any other image, is sent with its own bytes
    unchanged. *)
Theorem payload_of_an_uploaded_file w up file sub :
  file_type file = "image/" ++ sub ->
  sub <> "" ->
  allChars isLowercaseLetter sub = true ->
  let isHeic := String.eqb (file_type file) "image/heic"
                || Str.endsWith (Str.toLowerCase (file_name file)) ".heic" in
  (forall converted,
      isHeic = true -> sharp_jpeg w file = Some converted ->
      inlineData (itemRequest up (fileItem w file))
      = Some {| inline_data := converted; mimeType := "image/jpeg" |})
  /\ (isHeic = false \/ sharp_jpeg w file = None ->
      exists mime,
        inlineData (itemRequest up (fileItem w file))
        = Some {| inline_data := file_base64 file; mimeType := mime |}).
Proof.
  intros Ht Hne Hsub isHeic.
  split.
  - intros converted Hi Hc. unfold itemRequest, fileItem, processFile.
    fold isHeic. rewrite Hi, Hc. cbn [data inlineData]. do 2 f_equal.
    apply (base64Data_of_data_url "jpeg" converted); [ discriminate | reflexivity ].
  - intros Hcase. unfold itemRequest, fileItem, processFile. fold isHeic.
    assert (Hrt : base64Data ("data:" ++ file_type file ++ ";base64," ++ file_base64 file)
                  = file_base64 file).
    { rewrite Ht. now apply base64Data_of_data_url. }
    destruct isHeic.
    + destruct Hcase as [Hf | Hc]; [ discriminate | ]. rewrite Hc.
      cbn [data inlineData]. rewrite Hrt. eexists. reflexivity.
    + cbn [data inlineData]. rewrite Hrt. eexists. reflexivity.
Qed.

Lemma payload_of_an_uploaded_file_witness :
  file_type (png "a.png") = "image/" ++ "png"
  /\ exists mime,
       inlineData (itemRequest None (fileItem offline (png "a.png")))
       = Some {| inline_data := file_base64 (png "a.png"); mimeType := mime |}.
Proof.
  split; [ reflexivity | ].
  refine (proj2 (payload_of_an_uploaded_file offline None (png "a.png") "png"
                   eq_refl _ eq_refl) (or_introl eq_refl)).
  discriminate.
Defined.

(** ** Code fences *)

Lemma str_app_assoc a b c : (a ++ b) ++ c = a ++ (b ++ c).
Proof. induction a as [ | x a IH]; simpl; [ reflexivity | now rewrite IH ]. Qed.

Lemma str_app_nil_r s : s ++ "" = s.
Proof. induction s as [ | x s IH]; simpl; [ reflexivity | now rewrite IH ]. Qed.

Lemma rev_onto_app s : forall acc, Str.rev_onto s acc = Str.rev s ++ acc.
Proof.
  unfold Str.rev. induction s as [ | c s IH]; intros acc; simpl; [ reflexivity | ].
  rewrite IH, (IH (String c "")). now rewrite str_app_assoc.
Qed.

Lemma rev_onto_snoc s d : forall acc,
  Str.rev_onto (s ++ String d "") acc = String d (Str.rev_onto s acc).
Proof. induction s as [ | c s IH]; intros acc; simpl; [ reflexivity | apply IH ]. Qed.

Lemma rev_snoc s d : Str.rev (s ++ String d "") = String d (Str.rev s).
Proof. apply rev_onto_snoc. Qed.

Lemma rev_cons c s : Str.rev (String c s) = Str.rev s ++ String c "".
Proof. unfold Str.rev at 1. simpl. apply rev_onto_app. Qed.

Lemma rev_involutive s : Str.rev (Str.rev s) = s.
Proof.
  induction s as [ | c s IH]; [ reflexivity | ].
  now rewrite rev_cons, rev_snoc, IH.
Qed.

Lemma trimEnd_keeps s d :
  Str.is_space d = false -> Str.trimEnd (s ++ String d "") = s ++ String d "".
Proof.
  intros Hd. unfold Str.trimEnd. rewrite rev_snoc. simpl. rewrite Hd.
  now rewrite <- rev_snoc, rev_involutive.
Qed.

Lemma trimEnd_newline s : Str.trimEnd (s ++ String Str.newline "") = Str.trimEnd s.
Proof. unfold Str.trimEnd. now rewrite rev_snoc. Qed.

Lemma prefix_head_differs a p c s : a <> c -> String.prefix (String a p) (String c s) = false.
Proof. intros NE. simpl. destruct (ascii_dec a c); [ contradiction | reflexivity ]. Qed.

Lemma remove_all_cons pat c s :
  Str.remove_all pat 0 (String c s)
  = if String.prefix pat (String c s)
    then Str.remove_all pat
           (if Str.starts_with_newline (Str.drop (String.length pat) (String c s))
            then String.length pat else String.length pat - 1) s
    else String c (Str.remove_all pat 0 s).
Proof. reflexivity. Qed.

(** A pattern that starts with a backtick has no occurrence in a text
    without backticks, which [remove_all] copies. *)
Lemma remove_all_copies p body tail :
  allChars notBacktick body = true ->
  Str.remove_all (String "`" p) 0 (body ++ tail)
  = body ++ Str.remove_all (String "`" p) 0 tail.
Proof.
  induction body as [ | c body IH]; intros H; [ reflexivity | ].
  change (String c body ++ tail) with (String c (body ++ tail)).
  change (String c body ++ Str.remove_all (String "`" p) 0 tail)
    with (String c (body ++ Str.remove_all (String "`" p) 0 tail)).
  cbn [allChars] in H. apply andb_prop in H. destruct H as [H1 H2].
  unfold notBacktick in H1. apply negb_true_iff in H1.
  rewrite remove_all_cons, prefix_head_differs.
  - now rewrite IH.
  - intros E. subst c. discriminate H1.
Qed.

Lemma cleanResponseText_fenced mid :
  allChars notBacktick mid = true ->
  cleanResponseText (fenced ("{" ++ mid ++ "}")) = "{" ++ mid ++ "}".
Proof.
  intros H. unfold cleanResponseText, fenced.
  assert (Hb : allChars notBacktick ("{" ++ mid ++ "}") = true).
  { change ("{" ++ mid ++ "}") with (String "{" (mid ++ "}")). simpl.
    now rewrite allChars_app, H. }
  change (Str.remove_all "```json" 0
            ("```json" ++ String Str.newline ("{" ++ mid ++ "}")
                       ++ String Str.newline "```"))
    with (Str.remove_all "```json" 0
            (("{" ++ mid ++ "}") ++ String Str.newline "```")).
  rewrite (remove_all_copies "``json") by exact Hb.
  change (Str.remove_all "```json" 0 (String Str.newline "```"))
    with (String Str.newline "```").
  rewrite (remove_all_copies "``") by exact Hb.
  change (Str.remove_all "```" 0 (String Str.newline "```"))
    with (String Str.newline "").
  change (Str.remove_leading "json" (("{" ++ mid ++ "}") ++ String Str.newline ""))
    with (("{" ++ mid ++ "}") ++ String Str.newline "").
  unfold Str.trim.
  change (Str.trimStart (("{" ++ mid ++ "}") ++ String Str.newline ""))
    with (("{" ++ mid ++ "}") ++ String Str.newline "").
  rewrite trimEnd_newline.
  change ("{" ++ mid ++ "}") with (String "{" mid ++ String "}" "").
  now apply trimEnd_keeps.
Qed.

Lemma trim_braces mid : Str.trim ("{" ++ mid ++ "}") = "{" ++ mid ++ "}".
Proof.
  unfold Str.trim.
  change (Str.trimStart ("{" ++ mid ++ "}")) with (String "{" mid ++ String "}" "").
  now apply trimEnd_keeps.
Qed.

Lemma cleanResponseText_bare mid :
  allChars notBacktick mid = true ->
  cleanResponseText ("{" ++ mid ++ "}") = "{" ++ mid ++ "}".
Proof.
  intros H. unfold cleanResponseText.
  assert (Hb : allChars notBacktick ("{" ++ mid ++ "}") = true).
  { change ("{" ++ mid ++ "}") with (String "{" (mid ++ "}")). simpl.
    now rewrite allChars_app, H. }
  rewrite <- (str_app_nil_r ("{" ++ mid ++ "}")) at 1.
  rewrite (remove_all_copies "``json") by exact Hb.
  change (Str.remove_all "```json" 0 "") with "".
  rewrite (remove_all_copies "``") by exact Hb.
  change (Str.remove_all "```" 0 "") with "".
  rewrite str_app_nil_r.
  change (Str.remove_leading "json" ("{" ++ mid ++ "}")) with ("{" ++ mid ++ "}").
  apply trim_braces.
Qed.

Lemma trim_fenced body : Str.trim (fenced body) = fenced body.
Proof.
  assert (E : fenced body
              = (("```json" ++ String Str.newline "") ++ body ++ String Str.newline "``")
                ++ String "`" "").
  { rewrite !str_app_assoc. reflexivity. }
  rewrite E. unfold Str.trim.
  change (Str.trimStart
            ((("```json" ++ String Str.newline "") ++ body ++ String Str.newline "``")
             ++ String "`" ""))
    with ((("```json" ++ String Str.newline "") ++ body ++ String Str.newline "``")
          ++ String "`" "").
  now apply trimEnd_keeps.
Qed.

(** X7. Code fences are transparent.  A JSON object returned between
    [```json] fences is cleaned to the object itself, so the analysis of an
    item and the categorization are the same as if the object had been
    returned bare. *)
Theorem code_fences_are_transparent mid item i analyses :
  allChars notBacktick mid = true ->
  cleaned (Some (fenced ("{" ++ mid ++ "}"))) = "{" ++ mid ++ "}"
  /\ analyzeOutcome item i (Resolves (Some (fenced ("{" ++ mid ++ "}"))))
     = analyzeOutcome item i (Resolves (Some ("{" ++ mid ++ "}")))
  /\ categorizeOutcome analyses (Resolves (Some (fenced ("{" ++ mid ++ "}"))))
     = categorizeOutcome analyses (Resolves (Some ("{" ++ mid ++ "}"))).
Proof.
  intros H.
  assert (E1 : cleaned (Some (fenced ("{" ++ mid ++ "}"))) = "{" ++ mid ++ "}").
  { unfold cleaned, responseText. rewrite trim_fenced.
    now apply cleanResponseText_fenced. }
  assert (E2 : cleaned (Some ("{" ++ mid ++ "}")) = "{" ++ mid ++ "}").
  { unfold cleaned, responseText. rewrite trim_braces.
    now apply cleanResponseText_bare. }
  split; [ exact E1 | ].
  unfold analyzeOutcome, categorizeOutcome.
  fold (cleaned (Some (fenced ("{" ++ mid ++ "}")))).
  fold (cleaned (Some ("{" ++ mid ++ "}"))).
  rewrite E1, E2. split; reflexivity.
Qed.

Lemma code_fences_witness :
  allChars notBacktick (Str.quoted "'content':'receipt','confidence':80") = true
  /\ analyzeOutcome anItem 0
       (Resolves (Some (fenced ("{" ++ Str.quoted "'content':'receipt','confidence':80"
                                    ++ "}"))))
     = analyzeOutcome anItem 0
         (Resolves (Some ("{" ++ Str.quoted "'content':'receipt','confidence':80" ++ "}"))).
Proof.
  split; [ reflexivity | ].
  exact (proj1 (proj2 (code_fences_are_transparent
                         (Str.quoted "'content':'receipt','confidence':80")
                         anItem 0 [] eq_refl))).
Defined.

(** ** The three records of phase 1 that do not come from the response *)

Lemma or_else_text c s x : or_else (JStr (String c s)) x = JStr (String c s).
Proof. reflexivity. Qed.

Lemma slug_without_spaces pre n :
  allChars notSpace pre = true ->
  Str.underscore_spaces false (pre ++ Str.dec n) = pre ++ Str.dec n.
Proof.
  intros H. apply underscore_spaces_id. now rewrite allChars_app, H, dec_notSpace.
Qed.

(** X8. When the cleaned response is not JSON and holds no brace-delimited
    text that is JSON either, the item gets the fixed record of the third
    step: content [image_document_] and its number, the text "Could not
    extract text", theme "misc", confidence 20. *)
Theorem unparseable_response_gets_fallback_record item i t :
  JSON.parse (cleaned t) = None ->
  (forall jsonMatch, Str.match_braces (cleaned t) = Some jsonMatch ->
                     JSON.parse jsonMatch = None) ->
  analyzeOutcome item i (Resolves t)
  = {| index := i;
       content := "image_document_" ++ Str.dec (i + 1);
       extracted_text := "Could not extract text";
       main_theme := "misc";
       confidence := Fin 20;
       fileName := itemFileName item i |}.
Proof.
  intros H1 H2. unfold analyzeOutcome. fold (cleaned t).
  assert (Hp : parseAnalysis i (cleaned t) = fallbackAnalysis i).
  { unfold parseAnalysis. rewrite H1.
    destruct (Str.match_braces (cleaned t)) as [m | ] eqn:Em; [ | reflexivity ].
    now rewrite (H2 m eq_refl). }
  rewrite Hp. unfold cleanedAnalysis, fallbackAnalysis.
  set (d := Str.dec (i + 1)).
  cbn [Get obj_lookup String.eqb Ascii.eqb Bool.eqb bind or_else ToBoolean ToString
       negb].
  change (JStr ("image_document_" ++ d)) with (JStr (String "i" ("mage_document_" ++ d))).
  rewrite or_else_text. cbn [ToString bind].
  change (String "i" ("mage_document_" ++ d)) with ("image_document_" ++ d).
  subst d. rewrite slug_without_spaces by reflexivity.
  reflexivity.
Qed.

Lemma unparseable_response_witness :
  JSON.parse (cleaned (Some "I cannot read this image.")) = None
  /\ Str.match_braces (cleaned (Some "I cannot read this image.")) = None
  /\ confidence (analyzeOutcome anItem 2 (Resolves (Some "I cannot read this image.")))
     = Fin 20.
Proof.
  split; [ reflexivity | ]. split; [ reflexivity | ].
  rewrite (unparseable_response_gets_fallback_record anItem 2
             (Some "I cannot read this image.") eq_refl).
  - reflexivity.
  - intros m Hm. vm_compute in Hm. discriminate Hm.
Defined.

(** X9. When the cleaned response is the JSON value [null], reading its
    fields throws inside the [try] block, and the item gets the record of
    the [catch] block, as if its inference call had failed. *)
Theorem null_response_gets_error_record item i t :
  JSON.parse (cleaned t) = Some JNull ->
  analyzeOutcome item i (Resolves t) = analyzeOutcome item i Rejects.
Proof.
  intros H. unfold analyzeOutcome, parseAnalysis. fold (cleaned t). now rewrite H.
Qed.

Lemma null_response_witness :
  JSON.parse (cleaned (Some (fenced "null"))) = Some JNull
  /\ analyzeOutcome anItem 0 (Resolves (Some (fenced "null")))
     = analyzeOutcome anItem 0 Rejects.
Proof.
  split; [ vm_compute; reflexivity | ].
  apply null_response_gets_error_record. vm_compute. reflexivity.
Defined.

(** X10. When the response parses to a value that has none of the four
    fields (an empty object, a number, a string, an array), the fields take
    their defaults: the confidence is 50, not the 20 of an unparseable
    response, and the extracted text is empty. *)
Theorem response_without_fields_gets_defaults item i t v :
  JSON.parse (cleaned t) = Some v ->
  Get v "content" = Normal JUndefined ->
  Get v "extracted_text" = Normal JUndefined ->
  Get v "main_theme" = Normal JUndefined ->
  Get v "confidence" = Normal JUndefined ->
  analyzeOutcome item i (Resolves t)
  = {| index := i;
       content := "image_document_" ++ Str.dec (i + 1);
       extracted_text := "";
       main_theme := "misc";
       confidence := Fin 50;
       fileName := itemFileName item i |}.
Proof.
  intros Hp Hc Ht Hm Hk. unfold analyzeOutcome, parseAnalysis. fold (cleaned t).
  rewrite Hp. unfold cleanedAnalysis. rewrite Hc, Ht, Hm, Hk.
  set (d := Str.dec (i + 1)).
  cbn [bind or_else ToBoolean ToString].
  subst d. rewrite slug_without_spaces by reflexivity.
  reflexivity.
Qed.

Lemma response_without_fields_witness :
  JSON.parse (cleaned (Some "{}")) = Some (JObj [])
  /\ confidence (analyzeOutcome anItem 0 (Resolves (Some "{}"))) = Fin 50.
Proof.
  split; [ reflexivity | ].
  now rewrite (response_without_fields_gets_defaults anItem 0 (Some "{}") (JObj [])
                 eq_refl eq_refl eq_refl eq_refl eq_refl).
Defined.

(** ** The theme fallback and the status, worked out *)

Lemma theme_fallback_witness :
  ingest firstCallFails (JsonBody twoPngs None)
  = Some (map (fun d => {| data := d; name := None |}) twoPngs, None)
  /\ unusable (aggregateOutcome firstCallFails
                 (map (fun d => {| data := d; name := None |}) twoPngs) None) = true
  /\ exists rs (entries : list Obj.entry),
       fst (POST firstCallFails (JsonBody twoPngs None))
       = Json200 rs
           (JObj (themeProps
                    (analysesOf firstCallFails
                       (map (fun d => {| data := d; name := None |}) twoPngs) None)))
           None
       /\ map fst entries = ["misc"; "finance"].
Proof.
  split; [ reflexivity | ]. split; [ reflexivity | ].
  destruct (theme_fallback_partitions firstCallFails (JsonBody twoPngs None)
              (map (fun d => {| data := d; name := None |}) twoPngs) None eq_refl)
    as [rs [entries [H1 [H2 _]]]].
  - simpl; lia.
  - reflexivity.
  - intros a Ha. vm_compute in Ha.
    destruct Ha as [<- | [<- | []]]; discriminate.
  - exists rs, entries. split; [ exact H1 | ].
    vm_compute in H2. injection H2 as <-. reflexivity.
Defined.

Lemma every_status_witness :
  ingest firstCallFails (JsonBody twoPngs None)
  = Some (map (fun d => {| data := d; name := None |}) twoPngs, None)
  /\ forall r, In r (resultsOf (fst (POST firstCallFails (JsonBody twoPngs None)))) ->
               status r = "success".
Proof.
  split; [ reflexivity | ].
  intros r Hr.
  refine (every_status_is_success firstCallFails (JsonBody twoPngs None) _ None
            (resultsOf (fst (POST firstCallFails (JsonBody twoPngs None))))
            (categoriesOf (fst (POST firstCallFails (JsonBody twoPngs None))))
            None r eq_refl _ _ Hr).
  - simpl; lia.
  - vm_compute. reflexivity.
Defined.

(** ** Requests that fail after the calls *)

(** X13. When the aggregate response is the JSON value [null], a valid
    batch ends in the internal-error response, after all its calls to the
    inference client have been made; the analyses are lost. *)
Theorem null_categorization_fails_the_request w request items up t :
  ingest w request = Some (items, up) ->
  1 <= List.length items <= 10 ->
  aggregateOutcome w items up = Resolves t ->
  JSON.parse (cleaned t) = Some JNull ->
  fst (POST w request) = JsonError 500 "Internal server error"
  /\ List.length (snd (POST w request)) = List.length items + 1.
Proof.
  intros Hin Hn Ho Hp. rewrite (POST_valid _ _ _ _ Hin Hn). cbn [fst snd].
  split; [ | now rewrite length_app, length_map ].
  unfold categorizationOf. rewrite Ho. unfold categorizeOutcome. fold (cleaned t).
  rewrite Hp. unfold respond, results.
  destruct (analysesOf w items up) as [ | a r] eqn:E.
  - pose proof (length_analysesOf w items up) as Hl. rewrite E in Hl. simpl in Hl. lia.
  - reflexivity.
Qed.

Lemma null_categorization_witness :
  ingest nullCategorization (JsonBody onePng None) = Some ([anItem], None)
  /\ aggregateOutcome nullCategorization [anItem] None = Resolves (Some "null")
  /\ fst (POST nullCategorization (JsonBody onePng None))
     = JsonError 500 "Internal server error"
  /\ List.length (snd (POST nullCategorization (JsonBody onePng None))) = 2.
Proof.
  split; [ reflexivity | ]. split; [ reflexivity | ].
  refine (null_categorization_fails_the_request nullCategorization (JsonBody onePng None)
            [anItem] None (Some "null") eq_refl _ eq_refl eq_refl).
  simpl; lia.
Defined.

(** ** The user's instructions *)

(** X14. Empty instructions are no instructions: a request whose
    [userPrompt] is the empty string gets the response and makes the calls
    of the same request without [userPrompt]. *)
Theorem empty_prompt_is_no_prompt w files images :
  POST w (JsonBody images (Some "")) = POST w (JsonBody images None)
  /\ POST w (FormData files images (Some "")) = POST w (FormData files images None).
Proof. split; reflexivity. Qed.

(** ** Names *)

Lemma fileName_analyzeOutcome item i o :
  fileName (analyzeOutcome item i o) = itemFileName item i.
Proof.
  destruct (analyzeOutcome_fields item i o) as [E | [cs [ts [ms [_ [_ [_ E]]]]]]];
    rewrite E; reflexivity.
Qed.

Lemma fileName_analysesFrom items : forall start os,
  List.length os = List.length items ->
  map fileName (analysesFrom start items os)
  = map (fun p => itemFileName (snd p) (fst p)) (Obj.numbered start items).
Proof.
  induction items as [ | x r IH]; intros start [ | o os] H; simpl in *;
    try discriminate; [ reflexivity | ].
  rewrite fileName_analyzeOutcome, IH; auto.
Qed.

Lemma results_fileName cat analyses rs :
  results cat analyses = Normal rs -> map res_fileName rs = map fileName analyses.
Proof.
  unfold results. generalize 0 as start. revert rs.
  induction analyses as [ | a r IH]; intros rs start H; simpl in H.
  - now injection H as <-.
  - unfold bind in H. destruct (buildResult cat start a) as [y | ] eqn:Ey; [ | discriminate ].
    destruct (mapiM _ _ r) as [ys | ] eqn:Er; [ | discriminate ].
    injection H as <-. simpl. f_equal; [ | eauto ].
    unfold buildResult, bind in Ey. destruct (categoryName cat start); [ | discriminate ].
    now injection Ey as <-.
Qed.

Lemma numbered_app {A} (a b : list A) : forall start,
  Obj.numbered start (a ++ b)
  = (Obj.numbered start a ++ Obj.numbered (start + List.length a) b)%list.
Proof.
  induction a as [ | x a IH]; intros start; simpl.
  - now rewrite Nat.add_0_r.
  - rewrite IH. do 3 f_equal. lia.
Qed.

Lemma names_of_file_items w files : forall start,
  (forall f, In f files -> file_name f <> "") ->
  map (fun p => itemFileName (snd p) (fst p)) (Obj.numbered start (map (fileItem w) files))
  = map file_name files.
Proof.
  induction files as [ | f r IH]; intros start H; simpl; [ reflexivity | ].
  rewrite IH by (intros g Hg; apply H; now right). f_equal.
  unfold itemFileName, fileItem. destruct (processFile w f) as [buffer mime]. simpl.
  destruct (file_name f) eqn:E; [ | reflexivity ].
  elim (H f (or_introl eq_refl)). exact E.
Qed.

Lemma names_of_data_urls (images : list string) : forall start,
  map (fun p => itemFileName (snd p) (fst p))
    (Obj.numbered start (map (fun imageData => {| data := imageData; name := None |}) images))
  = map (fun k => "image_" ++ Str.dec (k + 1)) (seq start (List.length images)).
Proof.
  induction images as [ | d r IH]; intros start; simpl; [ reflexivity | ].
  now rewrite IH.
Qed.

Lemma names_of_results w files images up rs cats p :
  1 <= List.length (allItems w files images) <= 10 ->
  (forall f, In f files -> file_name f <> "") ->
  fst (POST w (FormData files images up)) = Json200 rs cats p ->
  map res_fileName rs
  = (map file_name (filter accepted files)
     ++ map (fun k => ("image_" ++ Str.dec (k + 1))%string)
          (seq (List.length (filter accepted files)) (List.length images)))%list.
Proof.
  intros Hn Hnames H.
  destruct (Json200_results w (FormData files images up) _ _ rs cats p eq_refl Hn H)
    as [Hrs _].
  rewrite (results_fileName _ _ _ Hrs). unfold analysesOf.
  rewrite fileName_analysesFrom by apply length_outcomes.
  unfold allItems. rewrite numbered_app, map_app.
  rewrite names_of_file_items.
  - rewrite names_of_data_urls, length_map. reflexivity.
  - intros f Hf. apply Hnames. apply filter_In in Hf. tauto.
Qed.

(** X15. Every result carries the name of what it was computed from, in
    the order of the items: the name of the uploaded file for the file
    parts the route accepted, and [image_] with the number of the item for
    the images sent as data URLs. *)
Theorem result_names_follow_the_items w files images up rs cats p :
  1 <= List.length (allItems w files images) <= 10 ->
  (forall f, In f files -> file_name f <> "") ->
  fst (POST w (FormData files images up)) = Json200 rs cats p ->
  map res_fileName rs
  = (map file_name (filter accepted files)
     ++ map (fun k => ("image_" ++ Str.dec (k + 1))%string)
          (seq (List.length (filter accepted files)) (List.length images)))%list.
Proof. exact (names_of_results w files images up rs cats p). Qed.

Lemma result_names_witness :
  1 <= List.length (allItems offline [png "a.png"; pdf "report.pdf"; png "b.png"]
                      ["data:image/png;base64,AAAA"]) <= 10
  /\ map res_fileName
       (resultsOf (fst (POST offline
                          (FormData [png "a.png"; pdf "report.pdf"; png "b.png"]
                             ["data:image/png;base64,AAAA"] None))))
     = ["a.png"; "b.png"; "image_3"].
Proof.
  split; [ simpl; lia | ].
  refine (result_names_follow_the_items offline
            [png "a.png"; pdf "report.pdf"; png "b.png"] ["data:image/png;base64,AAAA"] None
            _ (categoriesOf (fst (POST offline
                                    (FormData [png "a.png"; pdf "report.pdf"; png "b.png"]
                                       ["data:image/png;base64,AAAA"] None))))
            None _ _ _).
  - simpl; lia.
  - intros f [<- | [<- | [<- | []]]]; discriminate.
  - vm_compute. reflexivity.
Defined.

(** ** The page *)

Lemma length_filter_le {A} (f : A -> bool) l : List.length (filter f l) <= List.length l.
Proof.
  induction l as [ | x l IH]; simpl; [ lia | ].
  destruct (f x); simpl; lia.
Qed.

Lemma handleFiles_invariant selected st :
  pageInvariant st -> pageInvariant (fst (Client.handleFiles selected st)).
Proof.
  intros Hst. unfold Client.handleFiles.
  destruct (Nat.ltb_spec 10 (List.length (filter Client.allowed selected))) as [H | H];
    [ exact Hst | ].
  split; simpl; [ exact H | ].
  intros f Hf. apply filter_In in Hf. tauto.
Qed.

Lemma processImages_files w st :
  Client.files (fst (Client.processImages w st)) = Client.files st.
Proof.
  unfold Client.processImages. destruct (Client.files st) eqn:E; [ exact E | ].
  destruct (fst (POST w (Client.formData st))); reflexivity.
Qed.

Lemma step_invariant e st : pageInvariant st -> pageInvariant (Client.step e st).
Proof.
  intros Hst. destruct e; simpl; try exact Hst.
  - now apply handleFiles_invariant.
  - unfold Client.handleDrop. now apply handleFiles_invariant.
  - unfold pageInvariant. now rewrite processImages_files.
  - unfold Client.downloadOrganizedZip.
    destruct (_ || _); [ exact Hst | exact Hst ].
Qed.

Lemma run_invariant events : forall st,
  pageInvariant st -> pageInvariant (Client.run events st).
Proof.
  unfold Client.run. induction events as [ | e r IH]; intros st Hst; simpl; [ exact Hst | ].
  apply IH. now apply step_invariant.
Qed.

(** X16. Whatever the user does on the page (choosing or dropping files,
    typing instructions, processing, downloading, in any order), the page
    holds at most ten files, each an image, a PDF or a [.heic] file: a
    selection with more than ten such files is refused as a whole. *)
Theorem page_holds_at_most_ten_allowed_files events :
  List.length (Client.files (Client.run events Client.initial)) <= 10
  /\ forall f, In f (Client.files (Client.run events Client.initial)) ->
       Str.startsWith (file_type f) "image/" = true
       \/ file_type f = "application/pdf"
       \/ Str.endsWith (Str.toLowerCase (file_name f)) ".heic" = true.
Proof.
  destruct (run_invariant events Client.initial) as [H1 H2].
  { split; simpl; [ lia | intros f [] ]. }
  split; [ exact H1 | ].
  intros f Hf. specialize (H2 f Hf). unfold Client.allowed in H2.
  apply orb_prop in H2. destruct H2 as [H2 | H2]; [ | now right; right ].
  apply orb_prop in H2. destruct H2 as [H2 | H2]; [ now left | right; left ].
  now apply String.eqb_eq.
Qed.

Lemma accepted_allowed f : accepted f = true -> Client.allowed f = true.
Proof.
  unfold accepted, Client.allowed. intros H.
  apply orb_prop in H. destruct H as [H | H]; rewrite H; simpl;
    [ reflexivity | apply orb_true_r ].
Qed.

Lemma POST_of_the_page w st :
  List.length (Client.files st) <= 10 ->
  (List.length (filter accepted (Client.files st)) = 0
   /\ POST w (Client.formData st) = (JsonError 400 "No images provided", []))
  \/ (1 <= List.length (filter accepted (Client.files st)) <= 10
      /\ exists up,
           ingest w (Client.formData st) = Some (allItems w (Client.files st) [], up)
           /\ List.length (allItems w (Client.files st) []) =
              List.length (filter accepted (Client.files st))
           /\ fst (POST w (Client.formData st))
              = respond (categorizationOf w (allItems w (Client.files st) []) up)
                  (analysesOf w (allItems w (Client.files st) []) up) up).
Proof.
  intros Hle. pose proof (length_filter_le accepted (Client.files st)) as Hf.
  pose proof (length_allItems w (Client.files st) []) as Hl. simpl in Hl.
  rewrite Nat.add_0_r in Hl.
  unfold Client.formData. cbv zeta.
  set (up0 := if String.eqb (Str.trim (Client.userPrompt st)) ""
              then None else Some (Str.trim (Client.userPrompt st))).
  destruct (List.length (filter accepted (Client.files st))) as [ | n] eqn:En.
  - left. split; [ reflexivity | ].
    unfold POST, ingest. rewrite handle_invalid, Hl. reflexivity.
  - right. split; [ lia | ]. exists (truthy up0).
    split; [ reflexivity | ]. split; [ exact Hl | ].
    now rewrite (POST_valid w (FormData (Client.files st) [] up0)
                   (allItems w (Client.files st) []) (truthy up0) eq_refl)
      by lia.
Qed.

(** X17. The page never makes the route answer "Maximum 10 images
    allowed": after any sequence of events, the request the page would
    send holds at most ten items. *)
Theorem page_never_exceeds_the_limit events w :
  fst (POST w (Client.formData (Client.run events Client.initial)))
  <> JsonError 400 "Maximum 10 images allowed".
Proof.
  destruct (run_invariant events Client.initial) as [H1 _].
  { split; simpl; [ lia | intros f [] ]. }
  destruct (POST_of_the_page w _ H1) as [[_ E] | [_ [up [_ [_ E]]]]]; rewrite E.
  - discriminate.
  - destruct (respond_cases (categorizationOf w
                               (allItems w (Client.files (Client.run events Client.initial)) [])
                               up)
                (analysesOf w
                   (allItems w (Client.files (Client.run events Client.initial)) []) up) up)
      as [[rs [cats [_ [_ E']]]] | E']; rewrite E'; discriminate.
Qed.

(** X18. The page lets PDF files through and the route drops them.  A
    selection of one to ten PDF files is taken by the page, but processing
    it fails for every behaviour of the collaborators: the route answers
    400 without calling the inference client, the page alerts and shows no
    result. *)
Theorem pdf_selection_cannot_be_processed w selected st :
  selected <> [] ->
  List.length selected <= 10 ->
  (forall f, In f selected ->
     file_type f = "application/pdf"
     /\ Str.endsWith (Str.toLowerCase (file_name f)) ".heic" = false) ->
  Client.handleFiles selected st
  = ({| Client.files := selected;
        Client.processing := Client.processing st;
        Client.results := [];
        Client.categories := JObj [];
        Client.dragOver := Client.dragOver st;
        Client.downloading := Client.downloading st;
        Client.userPrompt := Client.userPrompt st |}, None)
  /\ POST w (Client.formData (fst (Client.handleFiles selected st)))
     = (JsonError 400 "No images provided", [])
  /\ snd (Client.processImages w (fst (Client.handleFiles selected st)))
     = Some "Error processing images. Please try again."
  /\ Client.results (fst (Client.processImages w (fst (Client.handleFiles selected st))))
     = [].
Proof.
  intros Hne Hle Hpdf.
  assert (Hall : filter Client.allowed selected = selected).
  { clear Hne Hle. induction selected as [ | f r IH]; [ reflexivity | ]. simpl.
    destruct (Hpdf f (or_introl eq_refl)) as [Ht _].
    unfold Client.allowed at 1. rewrite Ht. simpl.
    rewrite IH; [ reflexivity | ]. intros g Hg. apply Hpdf. now right. }
  assert (Hnone : filter accepted selected = []).
  { clear Hne Hle Hall. induction selected as [ | f r IH]; [ reflexivity | ]. simpl.
    destruct (Hpdf f (or_introl eq_refl)) as [Ht Hn].
    unfold accepted at 1. rewrite Ht, Hn. simpl.
    apply IH. intros g Hg. apply Hpdf. now right. }
  assert (E1 : Client.handleFiles selected st
               = ({| Client.files := selected;
                     Client.processing := Client.processing st;
                     Client.results := [];
                     Client.categories := JObj [];
                     Client.dragOver := Client.dragOver st;
                     Client.downloading := Client.downloading st;
                     Client.userPrompt := Client.userPrompt st |}, None)).
  { unfold Client.handleFiles. rewrite Hall.
    destruct (Nat.ltb_spec 10 (List.length selected)); [ lia | reflexivity ]. }
  split; [ exact E1 | ]. rewrite E1. cbn [fst].
  assert (E2 : POST w (Client.formData
                         {| Client.files := selected;
                            Client.processing := Client.processing st;
                            Client.results := [];
                            Client.categories := JObj [];
                            Client.dragOver := Client.dragOver st;
                            Client.downloading := Client.downloading st;
                            Client.userPrompt := Client.userPrompt st |})
               = (JsonError 400 "No images provided", [])).
  { unfold Client.formData, POST, ingest. cbn [Client.files].
    rewrite handle_invalid, length_allItems, Hnone. reflexivity. }
  split; [ exact E2 | ].
  unfold Client.processImages. cbn [Client.files]. rewrite E2.
  destruct selected; [ congruence | ]. split; reflexivity.
Qed.

Lemma pdf_selection_witness :
  [pdf "report.pdf"; pdf "invoice.pdf"] <> []
  /\ Client.files (fst (Client.handleFiles [pdf "report.pdf"; pdf "invoice.pdf"]
                          Client.initial))
     = [pdf "report.pdf"; pdf "invoice.pdf"]
  /\ snd (Client.processImages offline
            (fst (Client.handleFiles [pdf "report.pdf"; pdf "invoice.pdf"] Client.initial)))
     = Some "Error processing images. Please try again.".
Proof.
  split; [ discriminate | ].
  destruct (pdf_selection_cannot_be_processed offline [pdf "report.pdf"; pdf "invoice.pdf"]
              Client.initial) as [H1 [_ [H3 _]]].
  - discriminate.
  - simpl; lia.
  - intros f [<- | [<- | []]]; split; reflexivity.
  - split; [ now rewrite H1 | exact H3 ].
Defined.

(** ** The archive *)

Lemma after_last_dot_none s : allChars notDot s = true -> Client.after_last_dot s = None.
Proof.
  induction s as [ | c s IH]; simpl; [ reflexivity | ].
  intros H. apply andb_prop in H. destruct H as [H1 H2].
  rewrite IH by exact H2. unfold notDot in H1. apply negb_true_iff in H1. now rewrite H1.
Qed.

Lemma after_last_dot_app base ext :
  allChars notDot ext = true ->
  Client.after_last_dot (base ++ String "." ext) = Some ext.
Proof.
  intros H. induction base as [ | c base IH]; simpl.
  - now rewrite after_last_dot_none.
  - now rewrite IH.
Qed.

Lemma after_last_dot_notDot s : forall t,
  Client.after_last_dot s = Some t -> allChars notDot t = true.
Proof.
  induction s as [ | c s IH]; simpl; intros t H; [ discriminate | ].
  destruct (Client.after_last_dot s) as [u | ] eqn:E.
  - injection H as <-. now apply IH.
  - destruct (Ascii.eqb c "."); [ | discriminate ]. injection H as <-.
    clear IH. induction s as [ | d s IH]; simpl in *; [ reflexivity | ].
    destruct (Client.after_last_dot s) as [u | ] eqn:E2; [ discriminate | ].
    unfold notDot at 1. destruct (Ascii.eqb d "."); [ discriminate | ]. simpl. now apply IH.
Qed.

(** X19. The name a file gets in the archive is the content slug, the day
    and the extension of the file, the extension being what follows the
    last dot of the file's name.  A file named without a dot has its whole
    name as extension; in every case the generated name ends with a dot
    followed by a dot-free extension. *)
Theorem generated_name_keeps_the_extension date file a :
  (forall base ext,
      file_name file = base ++ String "." ext ->
      allChars notDot ext = true ->
      Client.generateFileName date file a
      = an_content a ++ "_" ++ date ++ "." ++ ext)
  /\ (allChars notDot (file_name file) = true ->
      Client.generateFileName date file a
      = an_content a ++ "_" ++ date ++ "." ++ file_name file)
  /\ (exists ext,
        Client.generateFileName date file a = an_content a ++ "_" ++ date ++ "." ++ ext
        /\ allChars notDot ext = true).
Proof.
  unfold Client.generateFileName, Client.extension. split; [ | split ].
  - intros base ext Hn He. now rewrite Hn, after_last_dot_app.
  - intros H. now rewrite after_last_dot_none.
  - destruct (Client.after_last_dot (file_name file)) as [t | ] eqn:E.
    + exists t. split; [ reflexivity | now apply after_last_dot_notDot in E ].
    + exists (file_name file). split; [ reflexivity | ].
      clear - E. induction (file_name file) as [ | c s IH]; simpl in *; [ reflexivity | ].
      destruct (Client.after_last_dot s) as [u | ]; [ discriminate | ].
      unfold notDot at 1. destruct (Ascii.eqb c "."); [ discriminate | ]. simpl. now apply IH.
Qed.

Lemma generated_name_witness :
  file_name (png "shot.final.png") = "shot.final" ++ String "." "png"
  /\ allChars notDot "png" = true
  /\ Client.generateFileName "2024-07-18" (png "shot.final.png")
       {| an_content := "react_error"; category := "errors";
          an_extracted_text := ""; an_confidence := Fin 90 |}
     = "react_error_2024-07-18.png".
Proof.
  split; [ reflexivity | ]. split; [ reflexivity | ].
  exact (proj1 (generated_name_keeps_the_extension "2024-07-18" (png "shot.final.png")
                  {| an_content := "react_error"; category := "errors";
                     an_extracted_text := ""; an_confidence := Fin 90 |})
           "shot.final" "png" eq_refl eq_refl).
Defined.




(** ** The single-phase handler *)

Lemma legacy_mapi_nth {A B} (f : nat -> A -> B) l : forall start,
  List.length (Legacy.mapi f start l) = List.length l
  /\ forall k x, nth_error l k = Some x ->
                 nth_error (Legacy.mapi f start l) k = Some (f (start + k) x).
Proof.
  induction l as [ | a r IH]; intros start; simpl.
  - split; [ reflexivity | ]. intros [ | k] x; discriminate.
  - destruct (IH (S start)) as [H1 H2]. split; [ now rewrite H1 | ].
    intros [ | k] x Hx; simpl in *.
    + injection Hx as <-. now rewrite Nat.add_0_r.
    + rewrite (H2 k x Hx). do 2 f_equal. lia.
Qed.

Lemma legacy_outcome_cases item i o :
  (Legacy.status (Legacy.analyzeOutcome item i o) = "success"
   /\ Legacy.error (Legacy.analyzeOutcome item i o) = None
   /\ exists t, o = Legacy.Resolves t)
  \/ (exists e, Legacy.analyzeOutcome item i o = Legacy.errorResult item i e).
Proof.
  unfold Legacy.analyzeOutcome. destruct o as [[m | ] | t].
  - right. now eexists.
  - right. now eexists.
  - destruct (Legacy.cleanedAnalysis i _) as [a | ].
    + left. repeat split. now exists t.
    + right. now eexists.
Qed.

(** X21. In the single-phase handler a batch of one to ten items always
    gets a response with one result per item, in order, and the result of
    an item depends on its own inference call only.  A result has status
    "error" exactly when it carries an error message; it then holds the
    fallback analysis with confidence 0.  An item whose call rejects has
    status "error", whatever happens to the other items. *)
Theorem single_phase_handler_reports_failures w files images up :
  1 <= List.length (Legacy.allItems files images) <= 10 ->
  exists rs,
    Legacy.POST w (FormData files images up) = Legacy.Json200 rs (truthy up)
    /\ List.length rs = List.length (Legacy.allItems files images)
    /\ forall k item,
         nth_error (Legacy.allItems files images) k = Some item ->
         exists r,
           nth_error rs k = Some r
           /\ r = Legacy.analyzeOutcome item k
                    (Legacy.generateContent w k (Legacy.itemRequest (truthy up) item))
           /\ Legacy.index r = k
           /\ (Legacy.status r = "error" <-> Legacy.error r <> None)
           /\ (Legacy.status r = "success" <-> Legacy.error r = None)
           /\ (Legacy.status r = "error" ->
               Legacy.confidence (Legacy.analysis r) = Fin 0
               /\ Legacy.content (Legacy.analysis r) = "error_image_" ++ Str.dec (k + 1))
           /\ ((exists m, Legacy.generateContent w k (Legacy.itemRequest (truthy up) item)
                          = Legacy.Rejects m) ->
               Legacy.status r = "error").
Proof.
  intros [Hlo Hhi]. unfold Legacy.POST.
  destruct (Nat.eqb_spec (List.length (Legacy.allItems files images)) 0); [ lia | ].
  destruct (Nat.ltb_spec 10 (List.length (Legacy.allItems files images))); [ lia | ].
  assert (Ht : truthy (truthy up) = truthy up) by (destruct up as [[ | ] | ]; reflexivity).
  rewrite Ht. eexists. split; [ reflexivity | ].
  destruct (legacy_mapi_nth
              (fun i item => Legacy.analyzeOutcome item i
                               (Legacy.generateContent w i
                                  (Legacy.itemRequest (truthy up) item)))
              (Legacy.allItems files images) 0) as [Hlen Hnth].
  split; [ exact Hlen | ].
  intros k item Hk. eexists. split; [ exact (Hnth k item Hk) | ].
  cbn [Nat.add]. split; [ reflexivity | ].
  set (o := Legacy.generateContent w k (Legacy.itemRequest (truthy up) item)).
  assert (Hidx : Legacy.index (Legacy.analyzeOutcome item k o) = k).
  { destruct (legacy_outcome_cases item k o) as [[_ [_ [t Ho]]] | [e He]].
    - rewrite Ho. unfold Legacy.analyzeOutcome.
      now destruct (Legacy.cleanedAnalysis k _).
    - now rewrite He. }
  split; [ exact Hidx | ].
  destruct (legacy_outcome_cases item k o) as [[Hs [He _]] | [e He]].
  - rewrite Hs, He. repeat split; try discriminate; try congruence.
    intros [m Hm]. subst o. rewrite Hm in Hs. destruct m; discriminate Hs.
  - rewrite He. cbn. repeat split; try discriminate; try congruence.
Qed.

Lemma single_phase_witness :
  1 <= List.length (Legacy.allItems [] twoPngs) <= 10
  /\ exists rs,
       Legacy.POST
         {| Legacy.generateContent := fun k _ =>
              match k with
              | 0 => Legacy.Rejects (Some "quota exceeded")
              | _ => Legacy.Resolves (Some "{}")
              end |}
         (FormData [] twoPngs None)
       = Legacy.Json200 rs None
       /\ List.length rs = 2.
Proof.
  split; [ simpl; lia | ].
  destruct (single_phase_handler_reports_failures
              {| Legacy.generateContent := fun k _ =>
                   match k with
                   | 0 => Legacy.Rejects (Some "quota exceeded")
                   | _ => Legacy.Resolves (Some "{}")
                   end |}
              [] twoPngs None) as [rs [H1 [H2 _]]].
  - simpl; lia.
  - exists rs. split; [ exact H1 | exact H2 ].
Defined.
